(** * Orchestration core of the Meson editor extension (src/extension.ts)

    A shallow embedding of [activate] and of the closures it registers:
    configuration resolution, the build-artifact change handler, the
    configure-on-open flow, the download-consent protocol, the language
    server start and restart paths, and the interactive task pick.

    The asynchronous TypeScript code is sequentialised: every [await] is a
    bind of the monad [M] below, which threads the host state ([World]),
    appends the calls made to collaborators to a log, and carries a
    completion that is either a normal value or a rejection. *)

From stdpp Require Import base option strings list gmap sorting.
From Stdlib Require Import ZArith Lia Ascii.

Open Scope string_scope.
Open Scope list_scope.

(** ** Values of the host *)

(** Values kept in the workspace [Memento] and in the settings of the
    [mesonbuild] section: strings and booleans. A [boolean | "ask"] setting
    is [VBoolean b] or [VString "ask"]. *)
Inductive Value :=
| VString (s : string)
| VBoolean (b : bool).

Global Instance Value_eq_dec : EqDecision Value.
Proof. solve_decision. Defined.

(** JavaScript truthiness: [false] and the empty string are falsy. *)
Definition truthy (v : Value) : bool :=
  match v with
  | VBoolean b => b
  | VString s => negb (String.eqb s "")
  end.

(** [typeof v === "boolean"]. *)
Definition as_boolean (v : Value) : option bool :=
  match v with
  | VBoolean b => Some b
  | VString _ => None
  end.

(** [SettingsKey] of ./types, as far as this file uses it. *)
Module SettingsKey.

Inductive t :=
| configureOnOpen
| downloadLanguageServer
| languageServer.

Global Instance eq_dec : EqDecision t.
Proof. solve_decision. Defined.

Definition code (k : t) : nat :=
  match k with
  | configureOnOpen => 0
  | downloadLanguageServer => 1
  | languageServer => 2
  end.

Definition of_code (n : nat) : t :=
  match n with
  | 0 => configureOnOpen
  | 1 => downloadLanguageServer
  | _ => languageServer
  end.

Global Instance countable : Countable t :=
  inj_countable' code of_code
    (fun k => match k with
              | configureOnOpen => eq_refl
              | downloadLanguageServer => eq_refl
              | languageServer => eq_refl
              end).

End SettingsKey.

Inductive ConfigurationTarget :=
| Global
| Workspace.

Global Instance ConfigurationTarget_eq_dec : EqDecision ConfigurationTarget.
Proof. solve_decision. Defined.

(** The settings of the [mesonbuild] section, one store per scope. *)
Record Settings := {
  globalScope : gmap SettingsKey.t Value;
  workspaceScope : gmap SettingsKey.t Value;
}.

Record Task := {
  task_name : string;
  task_detail : string;
}.

Global Instance Task_eq_dec : EqDecision Task.
Proof. solve_decision. Defined.

(** [TaskQuickPickItem] of ./types. *)
Record TaskQuickPickItem := {
  tq_label : string;
  tq_detail : string;
  tq_picked : bool;
  tq_task : Task;
}.

Global Instance TaskQuickPickItem_eq_dec : EqDecision TaskQuickPickItem.
Proof. solve_decision. Defined.

(** The items of the configuration quick pick: [{ index, label }]. *)
Record QuickPickItem := {
  index : nat;
  label : string;
}.

Global Instance QuickPickItem_eq_dec : EqDecision QuickPickItem.
Proof. solve_decision. Defined.

(** A handle on a language client, as returned by the client factory. *)
Inductive LanguageClient :=
| ClientHandle (id : nat).

Global Instance LanguageClient_eq_dec : EqDecision LanguageClient.
Proof. solve_decision. Defined.

Inductive ClientCall :=
| update
| start
| restart
| reloadConfig.

Global Instance ClientCall_eq_dec : EqDecision ClientCall.
Proof. solve_decision. Defined.

(** What the user does with the task picker of [pickTask]: accept with the
    item at a position active (no active item when out of range), or hide. *)
Inductive TaskPickAnswer :=
| Accept (position : nat)
| Hide.

(** Calls made to the host and to the collaborators, in program order. *)
Inductive Event :=
| EvShowInformationMessage (message : string) (items : list string)
| EvShowQuickPick (items : list QuickPickItem)
| EvPickerShow (placeholder : string)
| EvPickerItems (items : list TaskQuickPickItem)
| EvWorkspaceStateUpdate (key : string) (v : option Value)
| EvExtensionConfigurationSet (key : SettingsKey.t) (v : Value) (target : ConfigurationTarget)
| EvExecuteCommand (command : string)
| EvSetContext (key : string) (v : bool)
| EvRunFirstTask (mode : string) (name : option string)
| EvRunTask (task : Task)
| EvCreateLanguageServerClient (server : Value) (download : bool)
| EvClient (c : LanguageClient) (call : ClientCall)
| EvSubscribeConfigReload (server : Value)
| EvPushClient (c : LanguageClient)
| EvAppendLine (line : string)
| EvActivateLinters (root : string)
| EvActivateFormatters (root : string)
| EvClearCache
| EvRebuildTests
| EvGenEnvFile (buildDir : string)
| EvExplorerRefresh
| EvUseCompileCommands (buildDir : string)
| EvRegister (what : string).

(** ** [Array.prototype.sort] with a comparator

    The sort of the language is stable; for a consistent comparator its
    result is the stable sorted permutation, which insertion from the right
    computes: an element goes before the first one it does not exceed. *)

Fixpoint sort_insert {A} (cmp : A -> A -> Z) (x : A) (l : list A) : list A :=
  match l with
  | [] => [x]
  | y :: l' => if (0 <? cmp x y)%Z then y :: sort_insert cmp x l' else x :: y :: l'
  end.

Definition array_sort {A} (cmp : A -> A -> Z) (l : list A) : list A :=
  foldr (sort_insert cmp) [] l.

(** A comparator is consistent when it never puts two elements each
    strictly after the other. *)
Definition consistent {A} (cmp : A -> A -> Z) : Prop :=
  forall a b, (0 < cmp a b)%Z -> (cmp b a <= 0)%Z.

(** The order a comparator sorts into. *)
Definition ascending {A} (cmp : A -> A -> Z) (a b : A) : Prop := (cmp a b <= 0)%Z.

(** ** Collaborators outside this file

    The functions this file imports from ./utils, ./tasks, ./lsp/common, the
    [path] module and the host, over the state of the collaborators (file
    system, build directory, task graph, test tree), which this file only
    reaches through these calls. *)

Class Collaborators (Backend : Type) := {
  (** What a call to a collaborator does to the collaborators' state. *)
  effect : Event -> Backend -> Backend;
  (** [rootMesonFiles()] of ./utils: the [fsPath] of each file, in order. *)
  rootMesonFiles : Backend -> list string;
  (** [vscode.workspace.findFiles(glob)]. *)
  findFiles : string -> Backend -> list string;
  (** [relativeBuildDir(mesonFile)] and [checkMesonIsConfigured(buildDir)]
      of ./utils. *)
  relativeBuildDir : string -> string;
  checkMesonIsConfigured : string -> Backend -> bool;
  (** [dirname] and [relative] of the [path] module. *)
  dirname : string -> string;
  relative : string -> string -> string;
  (** [String.prototype.localeCompare]: negative, zero or positive. *)
  localeCompare : string -> string -> Z;
  (** [getMesonTasks(buildDir, sourceDir)] and [getTasks(mode)] of ./tasks. *)
  getMesonTasks : string -> string -> Backend -> list Task;
  getTasks : string -> Backend -> list Task;
  (** [createLanguageServerClient(server, download, ctx)] of ./lsp/common. *)
  createLanguageServerClient : Value -> bool -> Backend -> option LanguageClient;
  (** The default of each setting, as the extension manifest declares it. *)
  defaultSetting : SettingsKey.t -> Value;
}.

(** ** The host state and the monad of the extension *)

(** How an asynchronous computation ends: its promise resolves with a
    value, or rejects (an exception thrown in an [async] function). *)
Inductive Completion (A : Type) :=
| Normal (a : A)
| Rejected.
Arguments Normal {A} a.
Arguments Rejected {A}.

Section Host.

Context {Backend : Type}.

(** The state the extension runs in: the folders of the workspace (the
    [fsPath] of each, [None] for [undefined]), the workspace [Memento], the
    settings, the answers the user will give to the prompts and pickers to
    come, the state of the collaborators, the two variables of [activate]
    that its closures assign ([mesonTasks], [client]), and the log. *)
Record World := {
  workspaceFolders : option (list string);
  workspaceState : gmap string Value;
  settings : Settings;
  informationAnswers : list (option string);
  quickPickAnswers : list (option nat);
  taskPickAnswers : list TaskPickAnswer;
  backend : Backend;
  mesonTasks : option (list Task);
  client : option LanguageClient;
  log : list Event;
}.

Definition M (A : Type) : Type := World -> Completion A * World.

Definition ret {A} (a : A) : M A := fun w => (Normal a, w).

Definition bind {A B} (m : M A) (k : A -> M B) : M B :=
  fun w =>
    match m w with
    | (Normal a, w') => k a w'
    | (Rejected, w') => (Rejected, w')
    end.

Definition reject {A} : M A := fun w => (Rejected, w).

(** [try { m } catch (err) { }]: the value of [m], or [undefined]. *)
Definition try_catch {A} (m : M A) : M (option A) :=
  fun w =>
    match m w with
    | (Normal a, w') => (Normal (Some a), w')
    | (Rejected, w') => (Normal None, w')
    end.

Definition gets {A} (f : World -> A) : M A := fun w => (Normal (f w), w).

Definition modify (f : World -> World) : M unit := fun w => (Normal tt, f w).

(** *** Field updates of the host state *)

Definition with_workspaceState (m : gmap string Value) (w : World) : World :=
  {| workspaceFolders := workspaceFolders w; workspaceState := m;
     settings := settings w; informationAnswers := informationAnswers w;
     quickPickAnswers := quickPickAnswers w; taskPickAnswers := taskPickAnswers w;
     backend := backend w; mesonTasks := mesonTasks w; client := client w;
     log := log w |}.

Definition with_settings (st : Settings) (w : World) : World :=
  {| workspaceFolders := workspaceFolders w; workspaceState := workspaceState w;
     settings := st; informationAnswers := informationAnswers w;
     quickPickAnswers := quickPickAnswers w; taskPickAnswers := taskPickAnswers w;
     backend := backend w; mesonTasks := mesonTasks w; client := client w;
     log := log w |}.

Definition with_informationAnswers (l : list (option string)) (w : World) : World :=
  {| workspaceFolders := workspaceFolders w; workspaceState := workspaceState w;
     settings := settings w; informationAnswers := l;
     quickPickAnswers := quickPickAnswers w; taskPickAnswers := taskPickAnswers w;
     backend := backend w; mesonTasks := mesonTasks w; client := client w;
     log := log w |}.

Definition with_quickPickAnswers (l : list (option nat)) (w : World) : World :=
  {| workspaceFolders := workspaceFolders w; workspaceState := workspaceState w;
     settings := settings w; informationAnswers := informationAnswers w;
     quickPickAnswers := l; taskPickAnswers := taskPickAnswers w;
     backend := backend w; mesonTasks := mesonTasks w; client := client w;
     log := log w |}.

Definition with_taskPickAnswers (l : list TaskPickAnswer) (w : World) : World :=
  {| workspaceFolders := workspaceFolders w; workspaceState := workspaceState w;
     settings := settings w; informationAnswers := informationAnswers w;
     quickPickAnswers := quickPickAnswers w; taskPickAnswers := l;
     backend := backend w; mesonTasks := mesonTasks w; client := client w;
     log := log w |}.

Definition with_backend (b : Backend) (w : World) : World :=
  {| workspaceFolders := workspaceFolders w; workspaceState := workspaceState w;
     settings := settings w; informationAnswers := informationAnswers w;
     quickPickAnswers := quickPickAnswers w; taskPickAnswers := taskPickAnswers w;
     backend := b; mesonTasks := mesonTasks w; client := client w;
     log := log w |}.

Definition with_mesonTasks (t : option (list Task)) (w : World) : World :=
  {| workspaceFolders := workspaceFolders w; workspaceState := workspaceState w;
     settings := settings w; informationAnswers := informationAnswers w;
     quickPickAnswers := quickPickAnswers w; taskPickAnswers := taskPickAnswers w;
     backend := backend w; mesonTasks := t; client := client w;
     log := log w |}.

Definition with_client (c : option LanguageClient) (w : World) : World :=
  {| workspaceFolders := workspaceFolders w; workspaceState := workspaceState w;
     settings := settings w; informationAnswers := informationAnswers w;
     quickPickAnswers := quickPickAnswers w; taskPickAnswers := taskPickAnswers w;
     backend := backend w; mesonTasks := mesonTasks w; client := c;
     log := log w |}.

Definition with_log (l : list Event) (w : World) : World :=
  {| workspaceFolders := workspaceFolders w; workspaceState := workspaceState w;
     settings := settings w; informationAnswers := informationAnswers w;
     quickPickAnswers := quickPickAnswers w; taskPickAnswers := taskPickAnswers w;
     backend := backend w; mesonTasks := mesonTasks w; client := client w;
     log := l |}.

(** *** Relations between the world before and after a computation *)

(** Every run of [m] relates the world it starts in to the one it ends
    in, whether it completes normally or rejects. *)
Definition steps {A} (R : relation World) (m : M A) : Prop :=
  forall w, R w (m w).2.

(** The computation leaves a component of the world as it was. *)
Definition keeps {X} (f : World -> X) : relation World :=
  fun w w' => f w' = f w.

(** The computation only appends to the log, and only events in [P]. *)
Definition appends (P : Event -> Prop) : relation World :=
  fun w w' => exists d, log w' = log w ++ d /\ Forall P d.

(** The computation completes normally from every world. *)
Definition total {A} (m : M A) : Prop :=
  forall w, exists a w', m w = (Normal a, w').

(** The events the computation added to the log. *)
Definition events_since (w w' : World) : list Event :=
  drop (length (log w)) (log w').

End Host.

Arguments World : clear implicits.
Arguments M : clear implicits.

Notation "x <- m ;; k" := (bind m (fun x => k))
  (at level 100, m at next level, right associativity).
Notation "m ;;; k" := (bind m (fun _ => k))
  (at level 100, right associativity).

(** ** The extension *)

Section Extension.

Context {Backend : Type} `{!Collaborators Backend}.

Abbreviation World := (World Backend).
Abbreviation M := (M Backend).

(** *** Primitive operations *)

(** A call to the host user interface: recorded in the log. *)
Definition emit (ev : Event) : M unit :=
  modify (fun w => with_log (log w ++ [ev]) w).

(** A call to a collaborator: recorded, and applied to the backend. *)
Definition call (ev : Event) : M unit :=
  modify (fun w => with_backend (effect ev (backend w)) (with_log (log w ++ [ev]) w)).

(** [workspaceState.get<string>(key)]: the type parameter is trusted, as
    in the source; the keys read this way are only written with strings. *)
Definition workspaceState_get_string (key : string) : M (option string) :=
  gets (fun w => match workspaceState w !! key with
                 | Some (VString s) => Some s
                 | _ => None
                 end).

(** [workspaceState.get<boolean>(key)]. *)
Definition workspaceState_get_boolean (key : string) : M (option bool) :=
  gets (fun w => match workspaceState w !! key with
                 | Some (VBoolean b) => Some b
                 | _ => None
                 end).

(** [workspaceState.update(key, value)]; [undefined] removes the key. *)
Definition workspaceState_update (key : string) (v : option Value) : M unit :=
  modify (fun w =>
    with_workspaceState
      match v with
      | Some x => <[key := x]> (workspaceState w)
      | None => delete key (workspaceState w)
      end
      (with_log (log w ++ [EvWorkspaceStateUpdate key v]) w)).

(** Modelled from the spec: [extensionConfiguration] of ./utils is not in
    this file. The setting lives in persisted configuration with a global
    and a workspace scope; the value read is the workspace one when set,
    else the global one, else the default. *)
Definition effectiveSetting (key : SettingsKey.t) (st : Settings) : Value :=
  default (defaultSetting key) (workspaceScope st !! key ∪ globalScope st !! key).

Definition extensionConfiguration (key : SettingsKey.t) : M Value :=
  gets (fun w => effectiveSetting key (settings w)).

(** Modelled from the spec: [extensionConfigurationSet] of ./utils is not
    in this file. It persists the value in the scope of the target. *)
Definition settings_set (key : SettingsKey.t) (v : Value) (target : ConfigurationTarget)
    (st : Settings) : Settings :=
  match target with
  | Global => {| globalScope := <[key := v]> (globalScope st);
                 workspaceScope := workspaceScope st |}
  | Workspace => {| globalScope := globalScope st;
                    workspaceScope := <[key := v]> (workspaceScope st) |}
  end.

Definition extensionConfigurationSet (key : SettingsKey.t) (v : Value)
    (target : ConfigurationTarget) : M unit :=
  modify (fun w =>
    with_settings (settings_set key v target (settings w))
      (with_log (log w ++ [EvExtensionConfigurationSet key v target]) w)).

(** [vscode.window.showInformationMessage(message, ...items)]: resolves to
    the item the user chose, or [undefined] when the user dismisses it.
    A user with no answer left dismisses. *)
Definition showInformationMessage (message : string) (items : list string)
    : M (option string) :=
  fun w =>
    let response :=
      match informationAnswers w with
      | Some a :: _ => if bool_decide (a ∈ items) then Some a else None
      | _ => None
      end in
    (Normal response,
     with_informationAnswers (tail (informationAnswers w))
       (with_log (log w ++ [EvShowInformationMessage message items]) w)).

(** [vscode.window.showQuickPick(items, ...)]: one of the items shown, or
    [undefined]. The user answers with a position in the list shown. *)
Definition showQuickPick (items : list QuickPickItem) : M (option QuickPickItem) :=
  fun w =>
    let response :=
      match quickPickAnswers w with
      | Some n :: _ => items !! n
      | _ => None
      end in
    (Normal response,
     with_quickPickAnswers (tail (quickPickAnswers w))
       (with_log (log w ++ [EvShowQuickPick items]) w)).

Definition executeCommand (command : string) : M unit :=
  emit (EvExecuteCommand command).

Definition runFirstTask (mode : string) (name : option string) : M unit :=
  call (EvRunFirstTask mode name).

Definition runTask (t : Task) : M unit := call (EvRunTask t).

(** ** The closures of [activate] *)

(** What the closures registered by [activate] capture and never change. *)
Record Session := {
  root : string;
  mesonFiles : list string;
  mesonFile : string;
  sourceDir : string;
  buildDir : string;
  configurationChosen : bool;
  captured_downloadLanguageServer : Value;
  server : Value;
}.

(** Lines 47-65: the resolution of the authoritative file. Returns
    [mesonFile] and [configurationChosen]. *)
Definition resolveConfiguration (files : list string) : M (string * bool) :=
  savedMesonFile <- workspaceState_get_string "mesonbuild.mesonFile";;
  resolved <-
    match savedMesonFile with
    | Some saved =>
        if negb (String.eqb saved "") then
          if bool_decide (saved ∈ files) then
            persisted <- workspaceState_get_boolean "mesonbuild.configurationChosen";;
            ret (Some saved, default false persisted)
          else ret (None, false)
        else ret (Some saved, false)
    | None => ret (None, false)
    end;;
  let '(savedMesonFile, chosen) := resolved in
  first <- match savedMesonFile, files with
           | Some saved, _ => ret saved
           | None, f :: _ => ret f
           | None, [] => reject
           end;;
  let mesonFile := first in
  let sourceDir := dirname mesonFile in
  let buildDir := relativeBuildDir mesonFile in
  workspaceState_update "mesonbuild.mesonFile" (Some (VString mesonFile));;;
  workspaceState_update "mesonbuild.buildDir" (Some (VString buildDir));;;
  workspaceState_update "mesonbuild.sourceDir" (Some (VString sourceDir));;;
  workspaceState_update "mesonbuild.configurationChosen" None;;;
  ret (mesonFile, chosen).

(** Lines 77-80. *)
Definition updateHasProject : M unit :=
  found <- gets (fun w => findFiles "**/meson.build" (backend w));;
  emit (EvSetContext "mesonbuild.hasProject" (0 <? length found)%nat).

(** Lines 105-108: [provideTasks] of the task provider. *)
Definition provideTasks (s : Session) : M (list Task) :=
  cached <- gets mesonTasks;;
  match cached with
  | Some tasks => ret tasks
  | None =>
      tasks <- gets (fun w => getMesonTasks (buildDir s) (sourceDir s) (backend w));;
      modify (with_mesonTasks (Some tasks));;;
      ret tasks
  end.

(** Lines 115-121. *)
Definition changeHandler (s : Session) : M unit :=
  modify (with_mesonTasks None);;;
  call EvClearCache;;;
  call EvRebuildTests;;;
  call (EvGenEnvFile (buildDir s));;;
  call EvExplorerRefresh.

(** Lines 130-137: the listener on configuration changes, given what
    [e.affectsConfiguration] answers. *)
Definition onDidChangeConfiguration (s : Session) (affects : string -> bool) : M unit :=
  if affects "mesonbuild.buildFolder" then executeCommand "workbench.action.reloadWindow"
  else if affects "mesonbuild" then changeHandler s
  else ret tt.

(** Lines 140-142. *)
Definition compileCommandsHandler (s : Session) : M unit :=
  call (EvUseCompileCommands (buildDir s)).

(** Line 241: one item per discovered file, in discovery order. *)
Definition candidates (root : string) (files : list string) : list QuickPickItem :=
  imap (fun i file => {| index := i; label := relative root file |}) files.

(** Line 242: the comparator of the sort. *)
Definition byLabel (a b : QuickPickItem) : Z := localeCompare (label a) (label b).

(** Lines 241-242: the items of the configuration quick pick. *)
Definition configurationItems (root : string) (files : list string) : list QuickPickItem :=
  array_sort byLabel (candidates root files).

Definition configurePrompt : string :=
  "Meson project detected in this workspace but does not seems to be configured. Would you like VS Code to configure it?".

(** Lines 205-236: the value of [configureOnOpen] after the prompt. *)
Definition askConfigureOnOpen (configurationChosen : bool) : M Value :=
  setting <- extensionConfiguration SettingsKey.configureOnOpen;;
  let configureOnOpen := if configurationChosen then VBoolean true else setting in
  if bool_decide (configureOnOpen = VString "ask") then
    response <- showInformationMessage configurePrompt ["Yes"; "Always"; "No"; "Never"];;
    if bool_decide (response = Some "No") then ret configureOnOpen
    else if bool_decide (response = Some "Never") then
      extensionConfigurationSet SettingsKey.configureOnOpen (VBoolean false) Workspace;;;
      ret configureOnOpen
    else if bool_decide (response = Some "Yes") then ret (VBoolean true)
    else if bool_decide (response = Some "Always") then
      extensionConfigurationSet SettingsKey.configureOnOpen (VBoolean true) Workspace;;;
      ret (VBoolean true)
    else ret configureOnOpen
  else ret configureOnOpen.

(** Lines 238-258: [if (configureOnOpen) { ... }]. *)
Definition configureProject (root : string) (files : list string) (mesonFile : string)
    (configurationChosen : bool) (configureOnOpen : Value) : M unit :=
  if truthy configureOnOpen then
    cancel <-
      (if negb configurationChosen && (1 <? length files)%nat then
         selection <- showQuickPick (configurationItems root files);;
         match selection with
         | Some sel =>
             match files !! index sel with
             | Some picked =>
                 if negb (bool_decide (picked = mesonFile)) then
                   workspaceState_update "mesonbuild.mesonFile" (Some (VString picked));;;
                   workspaceState_update "mesonbuild.configurationChosen"
                     (Some (VBoolean true));;;
                   executeCommand "workbench.action.reloadWindow";;;
                   ret false
                 else ret false
             | None => reject
             end
         | None => ret true
         end
       else ret false);;
    if negb cancel then runFirstTask "reconfigure" None else ret tt
  else ret tt.

(** Lines 204-261: configure on open. *)
Definition configureOnOpenFlow (root : string) (files : list string)
    (mesonFile buildDir : string) (configurationChosen : bool) : M unit :=
  configured <- gets (fun w => checkMesonIsConfigured buildDir (backend w));;
  if negb configured then
    configureOnOpen <- askConfigureOnOpen configurationChosen;;
    configureProject root files mesonFile configurationChosen configureOnOpen
  else call EvRebuildTests.

(** Lines 265-294. *)
Definition shouldDownload (downloadLanguageServer : Value) : M bool :=
  match as_boolean downloadLanguageServer with
  | Some b => ret b
  | None =>
      response <- showInformationMessage
                    "Should the extension try to download the language server?"
                    ["Yes"; "Not this time"; "Never"];;
      if bool_decide (response = Some "Yes") then
        extensionConfigurationSet SettingsKey.downloadLanguageServer (VBoolean true) Global;;;
        ret true
      else if bool_decide (response = Some "Never") then
        extensionConfigurationSet SettingsKey.downloadLanguageServer (VBoolean false) Global;;;
        ret false
      else if bool_decide (response = Some "Not this time") then
        extensionConfigurationSet SettingsKey.downloadLanguageServer (VString "ask") Global;;;
        ret false
      else ret false
  end.

(** The call of the client factory, as lines 296 and 320 make it. *)
Definition newLanguageServerClient (server : Value) (download : bool)
    : M (option LanguageClient) :=
  created <- gets (fun w => createLanguageServerClient server download (backend w));;
  call (EvCreateLanguageServerClient server download);;;
  ret created.

(** Lines 296-315: the start of the language server at activation. *)
Definition startLanguageServer (root : string) (server downloadLanguageServer : Value)
    : M unit :=
  download <- shouldDownload downloadLanguageServer;;
  created <- newLanguageServerClient server download;;
  modify (with_client created);;;
  match created with
  | Some c =>
      if bool_decide (server = VString "Swift-MesonLSP") then
        emit (EvSubscribeConfigReload server);;;
        call (EvClient c update);;;
        emit (EvPushClient c);;;
        call (EvClient c start);;;
        call (EvClient c reloadConfig);;;
        emit (EvAppendLine
          "Not enabling the muon linter/formatter because Swift-MesonLSP is active.")
      else
        call (EvActivateLinters root);;;
        call (EvActivateFormatters root)
  | None =>
      call (EvActivateLinters root);;;
      call (EvActivateFormatters root)
  end.

(** Lines 318-331: the [mesonbuild.restartLanguageServer] command. *)
Definition restartLanguageServer (s : Session) : M unit :=
  current <- gets client;;
  match current with
  | None =>
      download <- shouldDownload (captured_downloadLanguageServer s);;
      created <- newLanguageServerClient (server s) download;;
      modify (with_client created);;;
      match created with
      | Some c =>
          emit (EvPushClient c);;;
          call (EvClient c start);;;
          call (EvClient c reloadConfig)
      | None => ret tt
      end
  | Some c =>
      call (EvClient c restart);;;
      call (EvClient c reloadConfig)
  end.

(** Lines 334-360. The promise resolves with the first active item on
    accept ([undefined] when there is none) and rejects on hide. A user
    with no answer left hides the picker. *)
Definition pickTask (mode : string) : M (option TaskQuickPickItem) :=
  emit (EvPickerShow ("Select target to " +:+ mode +:+ "."));;;
  runnableTasks <- gets (fun w => getTasks mode (backend w));;
  let items := map (fun task => {| tq_label := task_name task;
                                   tq_detail := task_detail task;
                                   tq_picked := false;
                                   tq_task := task |}) runnableTasks in
  emit (EvPickerItems items);;;
  answers <- gets taskPickAnswers;;
  modify (with_taskPickAnswers (tail answers));;;
  match answers with
  | Accept n :: _ => ret (items !! n)
  | _ => reject
  end.

(** Lines 362-376. *)
Definition pickAndRunTask (mode : string) (name : option string) : M unit :=
  let named := match name with
               | Some n => negb (String.eqb n "")
               | None => false
               end in
  if named then runFirstTask mode name
  else
    taskItem <- try_catch (pickTask mode);;
    match taskItem with
    | Some (Some item) => runTask (tq_task item)
    | _ => ret tt
    end.

(** Lines 67-202: the explorer, the debug providers, the watchers, the
    test controller, the task provider and the commands. *)
Definition registerProviders (buildDir : string) : M unit :=
  emit (EvRegister "MesonProjectExplorer");;;
  emit (EvRegister "debug:cppdbg");;;
  emit (EvRegister "debug:lldb");;;
  emit (EvRegister "watch:**/meson.build");;;
  updateHasProject;;;
  emit (EvRegister "tests:meson-test-controller");;;
  modify (with_mesonTasks None);;;
  emit (EvRegister "tasks:meson");;;
  emit (EvRegister ("watch:" +:+ buildDir +:+ "/build.ninja"));;;
  call (EvGenEnvFile buildDir);;;
  emit (EvRegister "onDidChangeConfiguration");;;
  emit (EvRegister ("watch:" +:+ buildDir +:+ "/compile_commands.json"));;;
  call (EvUseCompileCommands buildDir);;;
  emit (EvRegister "mesonbuild.openBuildFile");;;
  emit (EvRegister "mesonbuild.reconfigure");;;
  emit (EvRegister "mesonbuild.build");;;
  emit (EvRegister "mesonbuild.install");;;
  emit (EvRegister "mesonbuild.test");;;
  emit (EvRegister "mesonbuild.benchmark");;;
  emit (EvRegister "mesonbuild.clean");;;
  emit (EvRegister "mesonbuild.run").

(** Lines 33-332. The result is the environment of the closures, or
    [None] when activation returns early. *)
Definition activate : M (option Session) :=
  folders <- gets workspaceFolders;;
  match folders with
  | None => ret None
  | Some folders =>
      root <- match folders with
              | r :: _ => ret r
              | [] => reject
              end;;
      files <- gets (fun w => rootMesonFiles (backend w));;
      if (length files =? 0)%nat then ret None
      else
        resolved <- resolveConfiguration files;;
        let '(mesonFile, configurationChosen) := resolved in
        let sourceDir := dirname mesonFile in
        let buildDir := relativeBuildDir mesonFile in
        registerProviders buildDir;;;
        configureOnOpenFlow root files mesonFile buildDir configurationChosen;;;
        downloadLanguageServer <- extensionConfiguration SettingsKey.downloadLanguageServer;;
        server <- extensionConfiguration SettingsKey.languageServer;;
        startLanguageServer root server downloadLanguageServer;;;
        emit (EvRegister "mesonbuild.restartLanguageServer");;;
        ret (Some {| root := root; mesonFiles := files; mesonFile := mesonFile;
                     sourceDir := sourceDir; buildDir := buildDir;
                     configurationChosen := configurationChosen;
                     captured_downloadLanguageServer := downloadLanguageServer;
                     server := server |})
  end.

(** Lines 162-202: the commands that run tasks, with the argument the host
    passes to the three that take one. *)
Inductive TaskCommand :=
| mesonbuild_reconfigure
| mesonbuild_build (name : option string)
| mesonbuild_install
| mesonbuild_test (name : option string)
| mesonbuild_benchmark (name : option string)
| mesonbuild_clean
| mesonbuild_run.

Definition taskCommand (c : TaskCommand) : M unit :=
  match c with
  | mesonbuild_reconfigure => runFirstTask "reconfigure" None
  | mesonbuild_build name => pickAndRunTask "build" name
  | mesonbuild_install => runFirstTask "install" None
  | mesonbuild_test name => pickAndRunTask "test" name
  | mesonbuild_benchmark name => pickAndRunTask "benchmark" name
  | mesonbuild_clean => runFirstTask "clean" None
  | mesonbuild_run => pickAndRunTask "run" None
  end.

(** What the three watchers and the configuration listener deliver. The
    watcher on [**/meson.build] ignores changes (line 81); the watchers on
    [build.ninja] and [compile_commands.json] ignore deletions (lines 122
    and 143-148). *)
Inductive Notification :=
| mesonBuildCreated
| mesonBuildDeleted
| buildNinjaChanged
| buildNinjaCreated
| compileCommandsChanged
| compileCommandsCreated
| configurationChanged (affects : string -> bool).

(** Lines 82-83, 123-124, 130-137 and 149-150: the listener of each. *)
Definition notify (s : Session) (n : Notification) : M unit :=
  match n with
  | mesonBuildCreated | mesonBuildDeleted => updateHasProject
  | buildNinjaChanged | buildNinjaCreated => changeHandler s
  | compileCommandsChanged | compileCommandsCreated => compileCommandsHandler s
  | configurationChanged affects => onDidChangeConfiguration s affects
  end.

(** ** Vocabulary of the statements *)

(** The calls that run a task. *)
Definition isTaskRun (ev : Event) : bool :=
  match ev with
  | EvRunFirstTask _ _ | EvRunTask _ => true
  | _ => false
  end.

(** The information messages, and the one of line 212. *)
Definition isInformationMessage (ev : Event) : bool :=
  match ev with
  | EvShowInformationMessage _ _ => true
  | _ => false
  end.

Definition configureOnOpenPrompt : Event :=
  EvShowInformationMessage configurePrompt ["Yes"; "Always"; "No"; "Never"].

(** What a task command may log: the task picker and the run of a task. *)
Definition taskCommandEvent (ev : Event) : Prop :=
  match ev with
  | EvPickerShow _ | EvPickerItems _ | EvRunFirstTask _ _ | EvRunTask _ => True
  | _ => False
  end.

(** The [if (name)] of line 363. *)
Definition named (name : option string) : bool :=
  match name with
  | Some n => negb (String.eqb n "")
  | None => false
  end.

(** The items [pickTask] fills the picker with (lines 343-350). *)
Definition taskItems (mode : string) (w : World) : list TaskQuickPickItem :=
  map (fun task => {| tq_label := task_name task; tq_detail := task_detail task;
                      tq_picked := false; tq_task := task |})
      (getTasks mode (backend w)).

(** The notifications after which the cached task list is [null]. *)
Definition invalidates (n : Notification) : bool :=
  match n with
  | buildNinjaChanged | buildNinjaCreated => true
  | configurationChanged affects =>
      negb (affects "mesonbuild.buildFolder") && affects "mesonbuild"
  | _ => false
  end.

(** The world in which the user answers the next information message
    with [a] ([None]: dismisses it), and the one in which the user picks
    position [n] of the next quick pick ([None]: dismisses it). *)
Definition answering (a : option string) (w : World) : World :=
  with_informationAnswers (a :: informationAnswers w) w.

Definition picking (n : option nat) (w : World) : World :=
  with_quickPickAnswers (n :: quickPickAnswers w) w.

(** The path kept under [mesonbuild.mesonFile]. *)
Definition persistedFile (w : World) : option string :=
  match workspaceState w !! "mesonbuild.mesonFile" with
  | Some (VString s) => Some s
  | _ => None
  end.

(** The prior choice kept in the workspace state. *)
Definition persistedChosen (w : World) : bool :=
  match workspaceState w !! "mesonbuild.configurationChosen" with
  | Some (VBoolean b) => b
  | _ => false
  end.

(** The user picked, in the quick pick shown in world [w], a file other
    than the authoritative one. *)
Definition pickedAnother (root : string) (files : list string) (mesonFile : string)
    (w : World) (picked : string) : Prop :=
  exists n sel,
    head (quickPickAnswers w) = Some (Some n) /\
    configurationItems root files !! n = Some sel /\
    files !! index sel = Some picked /\
    picked <> mesonFile.

(** What one run of the change handler does to the collaborators: the
    four calls of lines 117-120, in order. *)
Definition downstream (buildDir : string) (b : Backend) : Backend :=
  effect EvExplorerRefresh
    (effect (EvGenEnvFile buildDir) (effect EvRebuildTests (effect EvClearCache b))).

(** The identifier of the server that excludes the linters and formatters. *)
Definition richServer : Value := VString "Swift-MesonLSP".

(** The consent setting as [extensionConfiguration] reads it. *)
Definition consentSetting (w : World) : Value :=
  effectiveSetting SettingsKey.downloadLanguageServer (settings w).

(** Every event but the display of the configuration quick pick. *)
Definition notPicker (ev : Event) : Prop :=
  forall items, ev <> EvShowQuickPick items.

Definition consentPrompt : Event :=
  EvShowInformationMessage "Should the extension try to download the language server?"
    ["Yes"; "Not this time"; "Never"].

Definition persistsConsent (v : Value) : Event :=
  EvExtensionConfigurationSet SettingsKey.downloadLanguageServer v Global.

End Extension.

Arguments Session : clear implicits.

(** ** A concrete workspace

    An instance of the collaborators over a small state: the discovered
    files, whether the build directory is configured, the task graph, the
    client the factory can build once a download is allowed, and the two
    artefacts the change handler touches. *)

Module Demo.

Record Backend := {
  files : list string;
  configured : bool;
  tasks : list Task;
  languageClient : option LanguageClient;
  cacheFilled : bool;
  envFile : option string;
}.

Definition apply (ev : Event) (b : Backend) : Backend :=
  match ev with
  | EvClearCache =>
      {| files := files b; configured := configured b; tasks := tasks b;
         languageClient := languageClient b; cacheFilled := false;
         envFile := envFile b |}
  | EvGenEnvFile dir =>
      {| files := files b; configured := configured b; tasks := tasks b;
         languageClient := languageClient b; cacheFilled := cacheFilled b;
         envFile := Some dir |}
  | _ => b
  end.

(** The part of a path before its last separator. *)
Fixpoint parent (path : string) : option string :=
  match path with
  | EmptyString => None
  | String c rest =>
      match parent rest with
      | Some dir => Some (String c dir)
      | None => if Ascii.eqb c "/"%char then Some EmptyString else None
      end
  end.

Definition dir_of (path : string) : string := default "." (parent path).

(** The path below a root, or the path itself when it is not below it. *)
Definition below (root path : string) : string :=
  let base := root +:+ "/" in
  if String.prefix base path
  then String.substring (String.length base) (String.length path - String.length base) path
  else path.

Definition compare_code (a b : string) : Z :=
  match String.compare a b with
  | Lt => (-1)%Z
  | Eq => 0%Z
  | Gt => 1%Z
  end.

Definition manifest (key : SettingsKey.t) : Value :=
  match key with
  | SettingsKey.configureOnOpen => VString "ask"
  | SettingsKey.downloadLanguageServer => VString "ask"
  | SettingsKey.languageServer => VString "Swift-MesonLSP"
  end.

Global Instance collaborators : Collaborators Backend := {|
  effect := apply;
  rootMesonFiles := files;
  findFiles := fun _ b => files b;
  relativeBuildDir := fun mesonFile => dir_of mesonFile +:+ "/builddir";
  checkMesonIsConfigured := fun _ b => configured b;
  dirname := dir_of;
  relative := below;
  localeCompare := compare_code;
  getMesonTasks := fun _ _ b => tasks b;
  getTasks := fun _ b => tasks b;
  createLanguageServerClient := fun _ download b =>
    if download then languageClient b else None;
  defaultSetting := manifest;
|}.

Definition noSettings : Settings := {| globalScope := ∅; workspaceScope := ∅ |}.

(** A workspace at [/ws] with the given files, build not configured. *)
Definition workspace (found : list string) : Backend :=
  {| files := found; configured := false;
     tasks := [{| task_name := "all"; task_detail := "build all" |}];
     languageClient := Some (ClientHandle 1); cacheFilled := true; envFile := None |}.

Definition world (found : list string) (st : Settings) (persisted : gmap string Value)
    (info : list (option string)) (picks : list (option nat)) : World Backend :=
  {| workspaceFolders := Some ["/ws"]; workspaceState := persisted; settings := st;
     informationAnswers := info; quickPickAnswers := picks; taskPickAnswers := [];
     backend := workspace found; mesonTasks := None; client := None; log := [] |}.

Definition single : list string := ["/ws/meson.build"].

Definition two : list string := ["/ws/b/meson.build"; "/ws/a/meson.build"].

(** Settings under which the configure-on-open prompt is not shown. *)
Definition neverConfigure : Settings :=
  {| globalScope := ∅;
     workspaceScope := {[ SettingsKey.configureOnOpen := VBoolean false ]} |}.

(** A workspace state that remembers the second file as the user's choice. *)
Definition remembered : gmap string Value :=
  <["mesonbuild.mesonFile" := VString "/ws/a/meson.build"]>
    (<["mesonbuild.configurationChosen" := VBoolean true]> ∅).

(** The environment of the closures after activation on [single]. *)
Definition session (consent : Value) : Session :=
  {| root := "/ws"; mesonFiles := single; mesonFile := "/ws/meson.build";
     sourceDir := "/ws"; buildDir := "/ws/builddir"; configurationChosen := false;
     captured_downloadLanguageServer := consent; server := richServer |}.

(** The environment of the closures after activation on [two]. *)
Definition session2 : Session :=
  {| root := "/ws"; mesonFiles := two; mesonFile := "/ws/b/meson.build";
     sourceDir := "/ws/b"; buildDir := "/ws/b/builddir"; configurationChosen := false;
     captured_downloadLanguageServer := VString "ask"; server := richServer |}.

End Demo.

(** * Properties *)

(** Decisions on closed data (the label the user chose against the labels
    of a switch) are settled by evaluation. *)
Ltac decide_closed :=
  repeat match goal with
    | |- context [bool_decide ?P] =>
        let b := eval vm_compute in (bool_decide P) in
        match b with
        | true => idtac
        | false => idtac
        end;
        change (bool_decide P) with b;
        cbn
    end.

(** ** Reasoning on computations *)

Section Steps.

Context {Backend : Type}.
Implicit Types w : World Backend.

#[global] Instance keeps_preorder {X} (f : World Backend -> X) : PreOrder (keeps f).
Proof.
  split.
  - by intros w.
  - intros w1 w2 w3 H12 H23. unfold keeps in *. congruence.
Qed.

#[global] Instance appends_preorder P : PreOrder (@appends Backend P).
Proof.
  split.
  - intros w. exists []. by rewrite app_nil_r.
  - intros w1 w2 w3 (d1 & E1 & F1) (d2 & E2 & F2). exists (d1 ++ d2).
    split; [by rewrite E2, E1, app_assoc|by apply Forall_app].
Qed.

Lemma steps_ret {A} R `{!Reflexive R} (a : A) : steps (Backend:=Backend) R (ret a).
Proof. by intros w. Qed.

Lemma steps_reject {A} R `{!Reflexive R} : steps (Backend:=Backend) R (@reject _ A).
Proof. by intros w. Qed.

Lemma steps_gets {A} R `{!Reflexive R} (f : World Backend -> A) : steps R (gets f).
Proof. by intros w. Qed.

Lemma steps_bind {A B} R `{!Transitive R} (m : M Backend A) (k : A -> M Backend B) :
  steps R m -> (forall a, steps R (k a)) -> steps R (bind m k).
Proof.
  intros Hm Hk w. unfold bind. specialize (Hm w).
  destruct (m w) as [[a|] w1]; cbn in *; [|done].
  etrans; [done|apply Hk].
Qed.

Lemma steps_try_catch {A} R (m : M Backend A) : steps R m -> steps R (try_catch m).
Proof. intros Hm w. unfold try_catch. specialize (Hm w). by destruct (m w) as [[a|] w1]. Qed.

Lemma total_bind {A B} (m : M Backend A) (k : A -> M Backend B) :
  total m -> (forall a, total (k a)) -> total (bind m k).
Proof.
  intros Hm Hk w. destruct (Hm w) as (a & w1 & E1). destruct (Hk a w1) as (b & w2 & E2).
  exists b, w2. unfold bind. by rewrite E1.
Qed.

Lemma appends_events_since P w w' :
  appends P w w' -> Forall P (events_since w w').
Proof. intros (d & E & F). unfold events_since. by rewrite E, drop_app_length. Qed.

Lemma events_since_app w w' d : log w' = log w ++ d -> events_since w w' = d.
Proof. intros E. unfold events_since. by rewrite E, drop_app_length. Qed.

End Steps.

(** One step of a proof that a program is in [steps R]: follow its shape. *)
Ltac step :=
  lazymatch goal with
  | |- steps _ (bind _ _) => apply steps_bind; [apply _| |intros ?]
  | |- steps _ (ret _) => apply steps_ret; apply _
  | |- steps _ reject => apply steps_reject; apply _
  | |- steps _ (gets _) => apply steps_gets; apply _
  | |- steps _ (try_catch _) => apply steps_try_catch
  | |- steps _ (if ?b then _ else _) => destruct b
  | |- steps _ (match ?x with _ => _ end) => destruct x
  end.

(** A primitive that leaves the component alone. *)
Ltac keeps_by_computation := by intros ?.

(** A primitive that appends events which are checked one by one. *)
Ltac appends_by_computation :=
  intros ?;
  first [ exists []; split; [symmetry; apply app_nil_r|constructor]
        | eexists; split; [reflexivity|]; repeat constructor; done ].

(** ** The stable sort of the quick-pick items *)

Section Sorting.

Context {A : Type} (cmp : A -> A -> Z).

Lemma sort_insert_Permutation x l : sort_insert cmp x l ≡ₚ x :: l.
Proof.
  induction l as [|y l IH]; cbn; [done|].
  destruct (0 <? cmp x y)%Z; [|done].
  rewrite IH. apply Permutation_swap.
Qed.

Lemma array_sort_Permutation l : array_sort cmp l ≡ₚ l.
Proof.
  induction l as [|x l IH]; cbn; [done|].
  fold (array_sort cmp l). by rewrite sort_insert_Permutation, IH.
Qed.

Lemma sort_insert_HdRel x y l :
  ascending cmp y x -> HdRel (ascending cmp) y l ->
  HdRel (ascending cmp) y (sort_insert cmp x l).
Proof.
  intros Hyx Hl. destruct l as [|z l]; cbn; [by constructor|].
  destruct (0 <? cmp x z)%Z; constructor; [by inversion Hl|done].
Qed.

Lemma sort_insert_Sorted x l :
  consistent cmp -> Sorted (ascending cmp) l -> Sorted (ascending cmp) (sort_insert cmp x l).
Proof.
  intros Hc. induction 1 as [|y l Hl IH Hhd]; cbn.
  - repeat constructor.
  - destruct (Z.ltb_spec 0 (cmp x y)) as [Hlt|Hge].
    + constructor; [done|]. apply sort_insert_HdRel; [|done]. by apply Hc.
    + constructor; [by constructor|]. constructor. unfold ascending. lia.
Qed.

Lemma array_sort_Sorted l : consistent cmp -> Sorted (ascending cmp) (array_sort cmp l).
Proof.
  intros Hc. induction l as [|x l IH]; cbn; [constructor|].
  by apply sort_insert_Sorted.
Qed.

End Sorting.

(** ** The download-consent protocol *)

Section Consent.

Context {Backend : Type} `{!Collaborators Backend}.
Implicit Types w : World Backend.

Lemma shouldDownload_boolean b w : shouldDownload (VBoolean b) w = (Normal b, w).
Proof. reflexivity. Qed.

(** C1. The consent protocol: a boolean setting is returned as it is,
    with no prompt and no change of the world; on "ask" the prompt is
    shown, "Yes" persists [true] in the global scope and returns [true],
    "Never" persists [false] and returns [false], "Not this time" persists
    "ask" and returns [false], and a dismissed prompt returns [false] and
    leaves the settings as they were. *)
Theorem shouldDownload_consent w :
  (forall b, shouldDownload (VBoolean b) w = (Normal b, w)) /\
  (let r := shouldDownload (VString "ask") (answering (Some "Yes") w) in
   r.1 = Normal true /\
   globalScope (settings r.2) !! SettingsKey.downloadLanguageServer = Some (VBoolean true) /\
   log r.2 = log w ++ [consentPrompt; persistsConsent (VBoolean true)]) /\
  (let r := shouldDownload (VString "ask") (answering (Some "Never") w) in
   r.1 = Normal false /\
   globalScope (settings r.2) !! SettingsKey.downloadLanguageServer = Some (VBoolean false) /\
   log r.2 = log w ++ [consentPrompt; persistsConsent (VBoolean false)]) /\
  (let r := shouldDownload (VString "ask") (answering (Some "Not this time") w) in
   r.1 = Normal false /\
   globalScope (settings r.2) !! SettingsKey.downloadLanguageServer = Some (VString "ask") /\
   log r.2 = log w ++ [consentPrompt; persistsConsent (VString "ask")]) /\
  (let r := shouldDownload (VString "ask") (answering None w) in
   r.1 = Normal false /\
   settings r.2 = settings w /\
   log r.2 = log w ++ [consentPrompt]).
Proof.
  split; [intros b; apply shouldDownload_boolean|].
  repeat split; cbn; decide_closed; try reflexivity.
  all: try (rewrite <- app_assoc; reflexivity).
  all: apply lookup_insert_eq.
Qed.

End Consent.

(** ** Configuration resolution *)

Section Resolution.

Context {Backend : Type} `{!Collaborators Backend}.
Implicit Types w : World Backend.

(** The file the resolution settles on and the flag it returns: lines
    47-58 as a function of the persisted values. *)
Lemma resolveConfiguration_result f fs w :
  (resolveConfiguration (f :: fs) w).1 =
    Normal match persistedFile w with
           | Some saved =>
               if String.eqb saved "" then (saved, false)
               else if bool_decide (saved ∈ f :: fs) then (saved, persistedChosen w)
               else (f, false)
           | None => (f, false)
           end.
Proof.
  unfold resolveConfiguration, persistedFile, persistedChosen, bind,
    workspaceState_get_string, workspaceState_get_boolean, gets, ret.
  destruct (workspaceState w !! "mesonbuild.mesonFile") as [[saved|b]|]; [|done..].
  destruct (String.eqb saved ""); [done|]. cbn [negb].
  destruct (bool_decide (saved ∈ f :: fs)); [|done].
  by destruct (workspaceState w !! "mesonbuild.configurationChosen") as [[?|?]|].
Qed.

(** With a file discovered, the resolution completes normally. *)
Lemma resolveConfiguration_total f fs : total (resolveConfiguration (f :: fs)).
Proof.
  intros w. pose proof (resolveConfiguration_result f fs w) as Hr.
  destruct (resolveConfiguration (f :: fs) w) as [c w']. cbn in Hr. subst c.
  by eexists _, _.
Qed.

(** The four writes that end every resolution pass (lines 62-65). *)
Lemma resolveConfiguration_persists files w mf ch w' :
  resolveConfiguration files w = (Normal (mf, ch), w') ->
  workspaceState w' !! "mesonbuild.mesonFile" = Some (VString mf) /\
  workspaceState w' !! "mesonbuild.buildDir" = Some (VString (relativeBuildDir mf)) /\
  workspaceState w' !! "mesonbuild.sourceDir" = Some (VString (dirname mf)) /\
  workspaceState w' !! "mesonbuild.configurationChosen" = None.
Proof.
  unfold resolveConfiguration. unfold bind at 1 2.
  destruct (workspaceState_get_string _ w) as [[saved|] w0]; [|by intros].
  match goal with |- context [match ?m w0 with _ => _ end] => destruct (m w0) as [[[o c]|] w1] end;
    [|by intros].
  unfold bind at 1.
  match goal with |- context [match ?m w1 with _ => _ end] => destruct (m w1) as [[first|] w2] end;
    [|by intros].
  unfold bind, workspaceState_update, modify, ret. cbn.
  intros [= <- <- <-]. cbn.
  repeat split.
  - rewrite lookup_delete_ne, !lookup_insert_ne, lookup_insert_eq by done. done.
  - rewrite lookup_delete_ne, lookup_insert_ne, lookup_insert_eq by done. done.
  - rewrite lookup_delete_ne, lookup_insert_eq by done. done.
  - apply lookup_delete_eq.
Qed.

(** C5. With a file discovered and a persisted path: when the path is one
    of the discovered files it is the authoritative file and
    [configurationChosen] is the persisted flag, [false] when there is none;
    when it is not, the resolution still completes, the first discovered file
    is authoritative, and it replaces the stale path in the workspace
    state. *)
Theorem resolveConfiguration_prior_choice f fs saved w :
  persistedFile w = Some saved ->
  saved <> "" ->
  let r := resolveConfiguration (f :: fs) w in
  (saved ∈ f :: fs -> r.1 = Normal (saved, persistedChosen w)) /\
  (saved ∉ f :: fs ->
   r.1 = Normal (f, false) /\
   workspaceState r.2 !! "mesonbuild.mesonFile" = Some (VString f)).
Proof.
  intros Hsaved Hne r.
  assert (Hr : r.1 = Normal (if bool_decide (saved ∈ f :: fs)
                             then (saved, persistedChosen w) else (f, false))).
  { subst r. rewrite resolveConfiguration_result, Hsaved.
    by destruct (String.eqb_spec saved ""). }
  split; intros Hin.
  - by rewrite Hr, bool_decide_eq_true_2.
  - rewrite bool_decide_eq_false_2 in Hr by done. split; [done|].
    destruct r as [c w'] eqn:Er; cbn in *; subst c.
    by apply resolveConfiguration_persists in Er as (? & _).
Qed.

End Resolution.

(** ** The items of the configuration quick pick *)

Section Items.

Context {Backend : Type} `{!Collaborators Backend}.

Lemma configurationItems_Permutation root files :
  configurationItems root files ≡ₚ candidates root files.
Proof. apply array_sort_Permutation. Qed.

Lemma byLabel_consistent : consistent localeCompare -> consistent byLabel.
Proof. intros Hc a b. apply Hc. Qed.

Lemma configurationItems_Sorted root files :
  consistent localeCompare -> Sorted (ascending byLabel) (configurationItems root files).
Proof. intros Hc. by apply array_sort_Sorted, byLabel_consistent. Qed.

Lemma configurationItems_length root files :
  length (configurationItems root files) = length files.
Proof.
  rewrite (Permutation_length (configurationItems_Permutation root files)).
  apply length_imap.
Qed.

(** Every item shown stands for a discovered file, at its index. *)
Lemma configurationItems_index root files sel :
  sel ∈ configurationItems root files ->
  exists file, files !! index sel = Some file /\ label sel = relative root file.
Proof.
  rewrite configurationItems_Permutation. unfold candidates.
  intros (i & file & -> & Hi)%elem_of_lookup_imap. by exists file.
Qed.

(** Every discovered file is offered. *)
Lemma configurationItems_complete root files i file :
  files !! i = Some file ->
  {| index := i; label := relative root file |} ∈ configurationItems root files.
Proof.
  intros Hi. rewrite configurationItems_Permutation.
  by apply (elem_of_lookup_imap_2 (fun i file => {| index := i; label := relative root file |})).
Qed.

End Items.

(** ** The configure-on-open flow *)

Section Configure.

Context {Backend : Type} `{!Collaborators Backend}.
Implicit Types w : World Backend.

Lemma configureProject_falsy root files mesonFile chosen v w :
  truthy v = false ->
  configureProject root files mesonFile chosen v w = (Normal tt, w).
Proof. intros Hv. unfold configureProject. by rewrite Hv. Qed.

(** Without a picker (a choice already made, or at most one candidate) the
    reconfigure task is run at once. *)
Lemma configureProject_direct root files mesonFile chosen v w :
  truthy v = true ->
  negb chosen && (1 <? length files)%nat = false ->
  configureProject root files mesonFile chosen v w =
    runFirstTask "reconfigure" None w.
Proof. intros Hv Hc. unfold configureProject. by rewrite Hv, Hc. Qed.

(** The picker is shown when no choice was made and there are several
    candidates. *)
Lemma configureProject_shows_picker root files mesonFile v w :
  truthy v = true ->
  1 < length files ->
  exists d,
    log (configureProject root files mesonFile false v w).2 =
      log w ++ EvShowQuickPick (configurationItems root files) :: d.
Proof.
  intros Hv Hlen. unfold configureProject. rewrite Hv.
  apply Nat.ltb_lt in Hlen. rewrite Hlen. cbn.
  unfold bind, showQuickPick, ret, reject, workspaceState_update, executeCommand,
    runFirstTask, emit, call, modify.
  repeat case_match; simplify_eq/=; rewrite <- ?app_assoc; eauto.
Qed.

(** Dismissing the picker: nothing but the display of the picker happens. *)
Lemma configureProject_dismissed root files mesonFile v w :
  truthy v = true ->
  1 < length files ->
  let r := configureProject root files mesonFile false v (picking None w) in
  r.1 = Normal tt /\
  log r.2 = log w ++ [EvShowQuickPick (configurationItems root files)] /\
  workspaceState r.2 = workspaceState w /\
  settings r.2 = settings w /\
  backend r.2 = backend w.
Proof.
  intros Hv Hlen. unfold configureProject. rewrite Hv.
  apply Nat.ltb_lt in Hlen. by rewrite Hlen.
Qed.

(** Picking the file that is already authoritative: the reconfigure task
    runs, and nothing is written. *)
Lemma configureProject_same root files mesonFile v w n sel :
  truthy v = true ->
  1 < length files ->
  configurationItems root files !! n = Some sel ->
  files !! index sel = Some mesonFile ->
  let r := configureProject root files mesonFile false v (picking (Some n) w) in
  r.1 = Normal tt /\
  log r.2 = log w ++ [EvShowQuickPick (configurationItems root files);
                      EvRunFirstTask "reconfigure" None] /\
  workspaceState r.2 = workspaceState w /\
  settings r.2 = settings w.
Proof.
  intros Hv Hlen Hsel Hfile. unfold configureProject. rewrite Hv.
  apply Nat.ltb_lt in Hlen. rewrite Hlen. cbn.
  unfold bind, showQuickPick. cbn. rewrite Hsel, Hfile.
  rewrite bool_decide_eq_true_2 by done. cbn.
  by rewrite <- app_assoc.
Qed.

(** Picking another file: the choice is persisted, the window reloads. *)
Lemma configureProject_other root files mesonFile v w n sel picked :
  truthy v = true ->
  1 < length files ->
  configurationItems root files !! n = Some sel ->
  files !! index sel = Some picked ->
  picked <> mesonFile ->
  let r := configureProject root files mesonFile false v (picking (Some n) w) in
  r.1 = Normal tt /\
  log r.2 = log w ++ [EvShowQuickPick (configurationItems root files);
                      EvWorkspaceStateUpdate "mesonbuild.mesonFile" (Some (VString picked));
                      EvWorkspaceStateUpdate "mesonbuild.configurationChosen"
                        (Some (VBoolean true));
                      EvExecuteCommand "workbench.action.reloadWindow";
                      EvRunFirstTask "reconfigure" None] /\
  workspaceState r.2 =
    <["mesonbuild.configurationChosen" := VBoolean true]>
      (<["mesonbuild.mesonFile" := VString picked]> (workspaceState w)) /\
  settings r.2 = settings w.
Proof.
  intros Hv Hlen Hsel Hfile Hne. unfold configureProject. rewrite Hv.
  apply Nat.ltb_lt in Hlen. rewrite Hlen. cbn.
  unfold bind, showQuickPick. cbn. rewrite Hsel, Hfile.
  rewrite bool_decide_eq_false_2 by done. cbn.
  by rewrite <- !app_assoc.
Qed.

(** C10. In the flow with several candidates and no choice made yet,
    dismissing the configuration quick pick ends the flow after the display
    of the picker: the reconfigure task is not run, and the workspace state,
    the settings and the collaborators are as before. Picking the file that
    is already authoritative runs the reconfigure task and nothing else: no
    write to the workspace state, no reload of the window. *)
Theorem configuration_pick_dismissed_or_unchanged root files mesonFile v w :
  truthy v = true ->
  1 < length files ->
  (let r := configureProject root files mesonFile false v (picking None w) in
   r.1 = Normal tt /\
   events_since w r.2 = [EvShowQuickPick (configurationItems root files)] /\
   workspaceState r.2 = workspaceState w /\
   settings r.2 = settings w /\
   backend r.2 = backend w) /\
  (forall n sel,
     configurationItems root files !! n = Some sel ->
     files !! index sel = Some mesonFile ->
     let r := configureProject root files mesonFile false v (picking (Some n) w) in
     r.1 = Normal tt /\
     events_since w r.2 = [EvShowQuickPick (configurationItems root files);
                           EvRunFirstTask "reconfigure" None] /\
     workspaceState r.2 = workspaceState w /\
     settings r.2 = settings w).
Proof.
  intros Hv Hlen. split.
  - destruct (configureProject_dismissed root files mesonFile v w Hv Hlen)
      as (Hr & Hlog & Hws & Hst & Hb).
    repeat split; try done. by apply events_since_app.
  - intros n sel Hsel Hfile.
    destruct (configureProject_same root files mesonFile v w n sel Hv Hlen Hsel Hfile)
      as (Hr & Hlog & Hws & Hst).
    repeat split; try done. by apply events_since_app.
Qed.

End Configure.

(** ** What each stage leaves alone *)

Create HintDb programs.

#[global] Hint Unfold registerProviders updateHasProject askConfigureOnOpen
  shouldDownload newLanguageServerClient startLanguageServer restartLanguageServer
  changeHandler provideTasks compileCommandsHandler onDidChangeConfiguration
  pickTask pickAndRunTask executeCommand runFirstTask runTask
  extensionConfiguration workspaceState_get_string workspaceState_get_boolean
  resolveConfiguration configureOnOpenFlow configureProject : programs.

(** Follow the shape of the program down to its primitives. *)
Ltac solve_steps :=
  autounfold with programs;
  repeat step;
  first [ keeps_by_computation | appends_by_computation ].

Ltac total_step :=
  lazymatch goal with
  | |- total (bind _ _) => apply total_bind; [|intros ?]
  | |- total (if ?b then _ else _) => destruct b
  | |- total (match ?x with _ => _ end) => destruct x
  end.

Ltac solve_total :=
  autounfold with programs;
  repeat total_step;
  by intros ?; eexists _, _.

Section Frames.

Context {Backend : Type} `{!Collaborators Backend}.
Implicit Types w : World Backend.

Lemma total_try_catch {A} (m : M Backend A) : total (try_catch m).
Proof. intros w. unfold try_catch. destruct (m w) as [[a|] w']; by eexists _, _. Qed.

(** *** Completion *)

Lemma registerProviders_total buildDir : total (registerProviders buildDir).
Proof. solve_total. Qed.

Lemma askConfigureOnOpen_total chosen : total (askConfigureOnOpen chosen).
Proof. solve_total. Qed.

Lemma shouldDownload_total v : total (shouldDownload (Backend:=Backend) v).
Proof. solve_total. Qed.

Lemma startLanguageServer_total root server v : total (startLanguageServer root server v).
Proof. solve_total. Qed.

Lemma restartLanguageServer_total s : total (restartLanguageServer s).
Proof. solve_total. Qed.

Lemma changeHandler_total s : total (changeHandler s).
Proof. solve_total. Qed.

Lemma provideTasks_total s : total (provideTasks s).
Proof. solve_total. Qed.

Lemma pickAndRunTask_total mode name : total (pickAndRunTask mode name).
Proof.
  unfold pickAndRunTask. destruct name as [n|]; [destruct (negb (n =? ""))%string|].
  all: repeat total_step; first [apply total_try_catch | by intros ?; eexists _, _].
Qed.

(** The index of the item picked is in range, so [configureProject] never
    rejects. *)
Lemma configureProject_total root files mesonFile chosen v :
  total (configureProject root files mesonFile chosen v).
Proof.
  intros w. unfold configureProject.
  destruct (truthy v); [|by eexists _, _].
  destruct (negb chosen && (1 <? length files)%nat); [|by eexists _, _].
  unfold bind, showQuickPick. cbn.
  destruct (quickPickAnswers w) as [|[n|] rest]; cbn; try by eexists _, _.
  destruct (configurationItems root files !! n) as [sel|] eqn:Hsel; cbn;
    [|by eexists _, _].
  apply list_elem_of_lookup_2, configurationItems_index in Hsel as (file & -> & _).
  destruct (bool_decide (file = mesonFile)); by eexists _, _.
Qed.

Lemma configureOnOpenFlow_total root files mesonFile buildDir chosen :
  total (configureOnOpenFlow root files mesonFile buildDir chosen).
Proof.
  unfold configureOnOpenFlow. repeat total_step.
  - by intros ?; eexists _, _.
  - apply askConfigureOnOpen_total.
  - apply configureProject_total.
  - by intros ?; eexists _, _.
Qed.

(** *** The workspace state *)

Lemma registerProviders_keeps_workspaceState buildDir :
  steps (keeps workspaceState) (registerProviders buildDir).
Proof. solve_steps. Qed.

Lemma askConfigureOnOpen_keeps_workspaceState chosen :
  steps (keeps workspaceState) (askConfigureOnOpen chosen).
Proof. solve_steps. Qed.

Lemma startLanguageServer_keeps_workspaceState root server v :
  steps (keeps workspaceState) (startLanguageServer root server v).
Proof. solve_steps. Qed.

Lemma restartLanguageServer_keeps_workspaceState s :
  steps (keeps workspaceState) (restartLanguageServer s).
Proof. solve_steps. Qed.

Lemma changeHandler_keeps_workspaceState s :
  steps (keeps workspaceState) (changeHandler s).
Proof. solve_steps. Qed.

Lemma provideTasks_keeps_workspaceState s :
  steps (keeps workspaceState) (provideTasks s).
Proof. solve_steps. Qed.

Lemma pickAndRunTask_keeps_workspaceState mode name :
  steps (keeps workspaceState) (pickAndRunTask mode name).
Proof. solve_steps. Qed.

Lemma onDidChangeConfiguration_keeps_workspaceState s affects :
  steps (keeps workspaceState) (onDidChangeConfiguration s affects).
Proof. solve_steps. Qed.

Lemma compileCommandsHandler_keeps_workspaceState s :
  steps (keeps workspaceState) (compileCommandsHandler s).
Proof. solve_steps. Qed.

(** *** The answers the user has in store for the quick pick *)

Lemma resolveConfiguration_keeps_quickPickAnswers files :
  steps (keeps quickPickAnswers) (resolveConfiguration files).
Proof. solve_steps. Qed.

Lemma registerProviders_keeps_quickPickAnswers buildDir :
  steps (keeps quickPickAnswers) (registerProviders buildDir).
Proof. solve_steps. Qed.

Lemma askConfigureOnOpen_keeps_quickPickAnswers chosen :
  steps (keeps quickPickAnswers) (askConfigureOnOpen chosen).
Proof. solve_steps. Qed.

(** *** The consent setting *)

Lemma set_configureOnOpen_keeps_consent v target :
  steps (keeps consentSetting)
    (extensionConfigurationSet SettingsKey.configureOnOpen v target).
Proof.
  intros w. unfold keeps, consentSetting, effectiveSetting. cbn.
  destruct target; cbn; by rewrite lookup_insert_ne.
Qed.

Lemma resolveConfiguration_keeps_consent files :
  steps (keeps consentSetting) (resolveConfiguration files).
Proof. solve_steps. Qed.

Lemma registerProviders_keeps_consent buildDir :
  steps (keeps consentSetting) (registerProviders buildDir).
Proof. solve_steps. Qed.

Lemma configureOnOpenFlow_keeps_consent root files mesonFile buildDir chosen :
  steps (keeps consentSetting) (configureOnOpenFlow root files mesonFile buildDir chosen).
Proof.
  pose proof set_configureOnOpen_keeps_consent.
  autounfold with programs. repeat step.
  all: first [ keeps_by_computation | done ].
Qed.

(** *** The configuration quick pick is shown by [configureProject] only *)

Lemma resolveConfiguration_no_picker files :
  steps (appends notPicker) (resolveConfiguration files).
Proof. solve_steps. Qed.

Lemma registerProviders_no_picker buildDir :
  steps (appends notPicker) (registerProviders buildDir).
Proof. solve_steps. Qed.

Lemma askConfigureOnOpen_no_picker chosen :
  steps (appends notPicker) (askConfigureOnOpen chosen).
Proof. solve_steps. Qed.

Lemma startLanguageServer_no_picker root server v :
  steps (appends notPicker) (startLanguageServer root server v).
Proof. solve_steps. Qed.

Lemma restartLanguageServer_no_picker s :
  steps (appends notPicker) (restartLanguageServer s).
Proof. solve_steps. Qed.

Lemma changeHandler_no_picker s : steps (appends notPicker) (changeHandler s).
Proof. solve_steps. Qed.

Lemma pickAndRunTask_no_picker mode name :
  steps (appends notPicker) (pickAndRunTask mode name).
Proof. solve_steps. Qed.

(** With one candidate the configure-on-open flow shows no picker. *)
Lemma configureOnOpenFlow_single_no_picker root f mesonFile buildDir chosen :
  steps (appends notPicker) (configureOnOpenFlow root [f] mesonFile buildDir chosen).
Proof.
  pose proof (askConfigureOnOpen_no_picker chosen).
  unfold configureOnOpenFlow. repeat step; try done; try appends_by_computation.
  unfold configureProject. cbn [length Nat.ltb Nat.leb]. rewrite andb_false_r.
  unfold runFirstTask. repeat step; appends_by_computation.
Qed.

(** *** The log only grows *)

Lemma resolveConfiguration_appends files :
  steps (appends (fun _ => True)) (resolveConfiguration files).
Proof. solve_steps. Qed.

Lemma registerProviders_appends buildDir :
  steps (appends (fun _ => True)) (registerProviders buildDir).
Proof. solve_steps. Qed.

Lemma configureOnOpenFlow_appends root files mesonFile buildDir chosen :
  steps (appends (fun _ => True)) (configureOnOpenFlow root files mesonFile buildDir chosen).
Proof. solve_steps. Qed.

Lemma startLanguageServer_appends root server v :
  steps (appends (fun _ => True)) (startLanguageServer root server v).
Proof. solve_steps. Qed.

End Frames.

(** ** Activation as a sequence of stages *)

Section Activation.

Context {Backend : Type} `{!Collaborators Backend}.
Implicit Types w : World Backend.

Lemma activate_without_folder w :
  workspaceFolders w = None -> activate w = (Normal None, w).
Proof. intros Hf. unfold activate, bind, gets. by rewrite Hf. Qed.

Lemma activate_without_root w :
  workspaceFolders w = Some [] -> activate w = (Rejected, w).
Proof. intros Hf. unfold activate, bind, gets, reject. by rewrite Hf. Qed.

Lemma activate_without_files w root others :
  workspaceFolders w = Some (root :: others) ->
  rootMesonFiles (backend w) = [] ->
  activate w = (Normal None, w).
Proof. intros Hf Hm. unfold activate, bind, gets, ret. by rewrite Hf, Hm. Qed.

(** With a folder and a discovered file, activation runs its four stages to
    completion and returns the environment of the closures. *)
Lemma activate_stages w root others f fs :
  workspaceFolders w = Some (root :: others) ->
  rootMesonFiles (backend w) = f :: fs ->
  exists mf ch w1 w2 w3 w4,
    resolveConfiguration (f :: fs) w = (Normal (mf, ch), w1) /\
    registerProviders (relativeBuildDir mf) w1 = (Normal tt, w2) /\
    configureOnOpenFlow root (f :: fs) mf (relativeBuildDir mf) ch w2 = (Normal tt, w3) /\
    startLanguageServer root
      (effectiveSetting SettingsKey.languageServer (settings w3)) (consentSetting w3) w3
      = (Normal tt, w4) /\
    activate w =
      (Normal (Some {| root := root; mesonFiles := f :: fs; mesonFile := mf;
                       sourceDir := dirname mf; buildDir := relativeBuildDir mf;
                       configurationChosen := ch;
                       captured_downloadLanguageServer := consentSetting w3;
                       server := effectiveSetting SettingsKey.languageServer (settings w3) |}),
       with_log (log w4 ++ [EvRegister "mesonbuild.restartLanguageServer"]) w4).
Proof.
  intros Hf Hm.
  destruct (resolveConfiguration_total f fs w) as ([mf ch] & w1 & E1).
  destruct (registerProviders_total (relativeBuildDir mf) w1) as ([] & w2 & E2).
  destruct (configureOnOpenFlow_total root (f :: fs) mf (relativeBuildDir mf) ch w2)
    as ([] & w3 & E3).
  destruct (startLanguageServer_total root
              (effectiveSetting SettingsKey.languageServer (settings w3))
              (consentSetting w3) w3) as ([] & w4 & E4).
  exists mf, ch, w1, w2, w3, w4. repeat split; try done.
  unfold activate, bind at 1, gets at 1. cbn beta iota. rewrite Hf.
  unfold bind at 1, ret at 1. cbn beta iota.
  unfold bind at 1, gets at 1. cbn beta iota. rewrite Hm. cbn [length Nat.eqb].
  unfold bind at 1. rewrite E1. cbn beta iota.
  unfold bind at 1. rewrite E2.
  unfold bind at 1. rewrite E3.
  unfold bind at 1, extensionConfiguration at 1, gets at 1. cbn beta iota.
  unfold bind at 1, extensionConfiguration at 1, gets at 1. cbn beta iota.
  unfold bind at 1. unfold consentSetting in E4. rewrite E4.
  reflexivity.
Qed.

End Activation.

(** ** One candidate, several candidates *)

Section Candidates.

Context {Backend : Type} `{!Collaborators Backend}.
Implicit Types w : World Backend.

(** Activation with one discovered file never shows the configuration
    quick pick. *)
Lemma activate_single_no_picker f w :
  rootMesonFiles (backend w) = [f] ->
  Forall notPicker (events_since w (activate w).2).
Proof.
  intros Hm. apply appends_events_since.
  destruct (workspaceFolders w) as [[|root others]|] eqn:Hf.
  - rewrite activate_without_root by done. reflexivity.
  - destruct (activate_stages w root others f [] Hf Hm)
      as (mf & ch & w1 & w2 & w3 & w4 & E1 & E2 & E3 & E4 & ->).
    cbn [snd].
    pose proof (resolveConfiguration_no_picker [f] w) as H1. rewrite E1 in H1.
    pose proof (registerProviders_no_picker (relativeBuildDir mf) w1) as H2.
    rewrite E2 in H2.
    pose proof (configureOnOpenFlow_single_no_picker root f mf (relativeBuildDir mf) ch w2)
      as H3.
    rewrite E3 in H3.
    pose proof (startLanguageServer_no_picker root
      (effectiveSetting SettingsKey.languageServer (settings w3)) (consentSetting w3) w3)
      as H4.
    rewrite E4 in H4. cbn [snd] in *.
    etrans; [exact H1|]. etrans; [exact H2|]. etrans; [exact H3|]. etrans; [exact H4|].
    eexists; split; [reflexivity|]. by repeat constructor.
  - rewrite activate_without_folder by done. reflexivity.
Qed.

(** C6. Provided the persisted path is not the empty string: with one
    discovered file that file is the authoritative one, and activation
    never shows the configuration quick pick; with no valid persisted choice
    the first discovered file is the authoritative one and no choice is
    recorded, and whenever the configure block is entered with several
    candidates it shows a quick pick whose items are the candidates, each
    once, in ascending order of their path relative to the root. *)
Theorem configuration_picker_policy root f fs w :
  persistedFile w <> Some "" ->
  ((exists ch, (resolveConfiguration [f] w).1 = Normal (f, ch)) /\
   (rootMesonFiles (backend w) = [f] ->
    Forall notPicker (events_since w (activate w).2))) /\
  ((forall saved, persistedFile w = Some saved -> saved ∉ f :: fs) ->
   (resolveConfiguration (f :: fs) w).1 = Normal (f, false)) /\
  (forall mesonFile v w',
     truthy v = true ->
     1 < length (f :: fs) ->
     exists d, log (configureProject root (f :: fs) mesonFile false v w').2 =
               log w' ++ EvShowQuickPick (configurationItems root (f :: fs)) :: d) /\
  configurationItems root (f :: fs) ≡ₚ candidates root (f :: fs) /\
  (consistent localeCompare ->
   Sorted (ascending byLabel) (configurationItems root (f :: fs))).
Proof.
  intros Hwf. repeat split.
  - rewrite resolveConfiguration_result.
    destruct (persistedFile w) as [saved|]; [|by eexists].
    destruct (String.eqb_spec saved ""); [by subst|].
    case_bool_decide as Hin; [|by eexists].
    apply list_elem_of_singleton in Hin as ->. by eexists.
  - apply activate_single_no_picker.
  - intros Hstale. rewrite resolveConfiguration_result.
    destruct (persistedFile w) as [saved|] eqn:Hsaved; [|done].
    destruct (String.eqb_spec saved ""); [by subst|].
    by rewrite bool_decide_eq_false_2 by by apply Hstale.
  - intros mesonFile v w' Hv Hlen. by apply configureProject_shows_picker.
  - apply configurationItems_Permutation.
  - apply configurationItems_Sorted.
Qed.

End Candidates.

(** ** The persisted [configurationChosen] flag *)

Section ChosenFlag.

Context {Backend : Type} `{!Collaborators Backend}.
Implicit Types w : World Backend.

(** [configureProject] writes the workspace state only on such a pick. *)
Lemma configureProject_workspaceState root files mesonFile chosen v w :
  let r := configureProject root files mesonFile chosen v w in
  workspaceState r.2 = workspaceState w \/
  exists picked,
    pickedAnother root files mesonFile w picked /\
    workspaceState r.2 =
      <["mesonbuild.configurationChosen" := VBoolean true]>
        (<["mesonbuild.mesonFile" := VString picked]> (workspaceState w)) /\
    exists d, log r.2 = log w ++ EvShowQuickPick (configurationItems root files) :: d.
Proof.
  unfold configureProject.
  destruct (truthy v); [|by left].
  destruct (negb chosen && (1 <? length files)%nat); [|by left].
  unfold bind, showQuickPick. cbn.
  destruct (quickPickAnswers w) as [|[n|] rest] eqn:Hq; cbn; try by left.
  destruct (configurationItems root files !! n) as [sel|] eqn:Hsel; cbn; [|by left].
  destruct (files !! index sel) as [picked|] eqn:Hfile; cbn; [|by left].
  case_bool_decide as Hsame; cbn; [by left|].
  right. exists picked. split; [by exists n, sel; rewrite Hq|].
  split; [done|]. rewrite <- !app_assoc. by eexists.
Qed.

Lemma configureOnOpenFlow_run root files mesonFile buildDir chosen w :
  configureOnOpenFlow root files mesonFile buildDir chosen w =
    if checkMesonIsConfigured buildDir (backend w) then call EvRebuildTests w
    else match askConfigureOnOpen chosen w with
         | (Normal v, w0) => configureProject root files mesonFile chosen v w0
         | (Rejected, w0) => (Rejected, w0)
         end.
Proof.
  unfold configureOnOpenFlow, bind at 1, gets. cbn beta iota.
  by destruct (checkMesonIsConfigured buildDir (backend w)).
Qed.

Lemma configureOnOpenFlow_workspaceState root files mesonFile buildDir chosen w :
  let r := configureOnOpenFlow root files mesonFile buildDir chosen w in
  workspaceState r.2 = workspaceState w \/
  exists picked,
    pickedAnother root files mesonFile w picked /\
    workspaceState r.2 =
      <["mesonbuild.configurationChosen" := VBoolean true]>
        (<["mesonbuild.mesonFile" := VString picked]> (workspaceState w)) /\
    EvShowQuickPick (configurationItems root files) ∈ events_since w r.2.
Proof.
  cbv zeta. rewrite configureOnOpenFlow_run.
  destruct (checkMesonIsConfigured buildDir (backend w)); [by left|].
  pose proof (askConfigureOnOpen_keeps_workspaceState chosen w) as Hws.
  pose proof (askConfigureOnOpen_keeps_quickPickAnswers chosen w) as Hq.
  pose proof (askConfigureOnOpen_no_picker chosen w) as (d0 & Hlog & _).
  destruct (askConfigureOnOpen chosen w) as [[v|] w0]; [|by left].
  unfold keeps in *. cbn [snd] in Hws, Hq, Hlog.
  destruct (configureProject_workspaceState root files mesonFile chosen v w0)
    as [Hsame|(picked & (n & sel & Hpick) & Hw & d & Hd)]; cbv zeta in *.
  - left. by rewrite Hsame.
  - right. exists picked. split; [exists n, sel; by rewrite <- Hq|].
    split; [by rewrite Hw, Hws|].
    rewrite (events_since_app w _ (d0 ++ EvShowQuickPick (configurationItems root files) :: d)).
    + apply elem_of_app. right. by left.
    + by rewrite Hd, Hlog, <- app_assoc.
Qed.

(** Activation returns an environment only with a folder and a file. *)
Lemma activate_returns_session w s w' :
  activate w = (Normal (Some s), w') ->
  exists root others f fs,
    workspaceFolders w = Some (root :: others) /\ rootMesonFiles (backend w) = f :: fs.
Proof.
  intros Hrun.
  destruct (workspaceFolders w) as [[|root others]|] eqn:Hf.
  - by rewrite activate_without_root in Hrun.
  - destruct (rootMesonFiles (backend w)) as [|f fs] eqn:Hm.
    + by rewrite (activate_without_files w root others) in Hrun.
    + by exists root, others, f, fs.
  - by rewrite activate_without_folder in Hrun.
Qed.

(** C7. Every resolution pass completes with [mesonFile], the derived
    [buildDir] and the derived [sourceDir] persisted and the
    [configurationChosen] key unset. After an activation the key holds a
    value only if that value is [true] and the user picked, in the
    configuration quick pick that activation showed, a file other than the
    authoritative one. The closures registered by the activation leave the
    workspace state as it is. *)
Theorem configurationChosen_reset_then_set :
  (forall f fs w,
     let r := resolveConfiguration (f :: fs) w in
     exists mf ch,
       r.1 = Normal (mf, ch) /\
       workspaceState r.2 !! "mesonbuild.mesonFile" = Some (VString mf) /\
       workspaceState r.2 !! "mesonbuild.buildDir" = Some (VString (relativeBuildDir mf)) /\
       workspaceState r.2 !! "mesonbuild.sourceDir" = Some (VString (dirname mf)) /\
       workspaceState r.2 !! "mesonbuild.configurationChosen" = None) /\
  (forall w s w' v,
     activate w = (Normal (Some s), w') ->
     workspaceState w' !! "mesonbuild.configurationChosen" = Some v ->
     v = VBoolean true /\
     exists picked,
       pickedAnother (root s) (mesonFiles s) (mesonFile s) w picked /\
       workspaceState w' !! "mesonbuild.mesonFile" = Some (VString picked) /\
       EvShowQuickPick (configurationItems (root s) (mesonFiles s)) ∈ events_since w w') /\
  (forall s mode name affects,
     steps (keeps workspaceState) (changeHandler s) /\
     steps (keeps workspaceState) (provideTasks s) /\
     steps (keeps workspaceState) (restartLanguageServer s) /\
     steps (keeps workspaceState) (pickAndRunTask mode name) /\
     steps (keeps workspaceState) (onDidChangeConfiguration s affects) /\
     steps (keeps workspaceState) (compileCommandsHandler s)).
Proof.
  split; [|split].
  - intros f fs w r. subst r.
    destruct (resolveConfiguration_total f fs w) as ([mf ch] & w1 & E1).
    rewrite E1. exists mf, ch. split; [done|].
    by apply resolveConfiguration_persists in E1.
  - intros w s w' v Hrun Hv.
    destruct (activate_returns_session w s w' Hrun) as (rt & others & f & fs & Hf & Hm).
    destruct (activate_stages w rt others f fs Hf Hm)
      as (mf & ch & w1 & w2 & w3 & w4 & E1 & E2 & E3 & E4 & Eact).
    rewrite Eact in Hrun. injection Hrun as <- <-. cbn [root mesonFiles mesonFile].
    change (workspaceState w4 !! "mesonbuild.configurationChosen" = Some v) in Hv.
    change (workspaceState (with_log ?l w4)) with (workspaceState w4).
    pose proof (resolveConfiguration_persists _ _ _ _ _ E1) as (_ & _ & _ & Hnone).
    pose proof (resolveConfiguration_keeps_quickPickAnswers (f :: fs) w) as Hq1.
    pose proof (resolveConfiguration_appends (f :: fs) w) as (d1 & Hd1 & _).
    rewrite E1 in Hq1, Hd1.
    pose proof (registerProviders_keeps_workspaceState (relativeBuildDir mf) w1) as Hws2.
    pose proof (registerProviders_keeps_quickPickAnswers (relativeBuildDir mf) w1) as Hq2.
    pose proof (registerProviders_appends (relativeBuildDir mf) w1) as (d2 & Hd2 & _).
    rewrite E2 in Hws2, Hq2, Hd2.
    pose proof (startLanguageServer_keeps_workspaceState rt
      (effectiveSetting SettingsKey.languageServer (settings w3)) (consentSetting w3) w3)
      as Hws4.
    pose proof (startLanguageServer_appends rt
      (effectiveSetting SettingsKey.languageServer (settings w3)) (consentSetting w3) w3)
      as (d4 & Hd4 & _).
    rewrite E4 in Hws4, Hd4.
    unfold keeps in *. cbn [snd] in *.
    rewrite Hws4 in Hv |- *.
    destruct (configureOnOpenFlow_workspaceState rt (f :: fs) mf (relativeBuildDir mf) ch w2)
      as [Hsame|(picked & (n & sel & Hhead & Hpick) & Hw3 & Hin)]; rewrite E3 in *;
      cbn [snd] in *.
    + rewrite Hsame, Hws2, Hnone in Hv. done.
    + rewrite Hw3 in Hv |- *. rewrite lookup_insert_eq in Hv. injection Hv as <-.
      split; [done|]. exists picked. split; [|split].
      * exists n, sel. by rewrite <- Hq1, <- Hq2.
      * by rewrite lookup_insert_ne, lookup_insert_eq.
      * pose proof (configureOnOpenFlow_appends rt (f :: fs) mf (relativeBuildDir mf) ch w2)
          as (d3 & Hd3 & _).
        rewrite E3 in Hd3. cbn [snd] in Hd3.
        rewrite (events_since_app w2 w3 d3) in Hin by done.
        rewrite (events_since_app w _
                   (d1 ++ d2 ++ d3 ++ d4 ++ [EvRegister "mesonbuild.restartLanguageServer"])).
        -- rewrite !elem_of_app. auto.
        -- cbn [log with_log]. rewrite Hd4, Hd3, Hd2, Hd1. by rewrite <- !app_assoc.
  - intros s mode name affects.
    auto 10 using changeHandler_keeps_workspaceState, provideTasks_keeps_workspaceState,
      restartLanguageServer_keeps_workspaceState, pickAndRunTask_keeps_workspaceState,
      onDidChangeConfiguration_keeps_workspaceState,
      compileCommandsHandler_keeps_workspaceState.
Qed.

End ChosenFlag.

(** ** The build-artifact change handler *)

Section ChangeHandler.

Context {Backend : Type} `{!Collaborators Backend}.
Implicit Types w : World Backend.

Lemma changeHandler_run s w :
  let r := changeHandler s w in
  r.1 = Normal tt /\
  mesonTasks r.2 = None /\
  backend r.2 = downstream (buildDir s) (backend w) /\
  log r.2 = log w ++ [EvClearCache; EvRebuildTests; EvGenEnvFile (buildDir s);
                      EvExplorerRefresh].
Proof.
  cbv zeta. unfold changeHandler, bind, call, modify, downstream.
  repeat split. cbn. by rewrite <- !app_assoc.
Qed.

(** With the cache empty, [provideTasks] asks the task graph. *)
Lemma provideTasks_recomputes s w :
  mesonTasks w = None ->
  (provideTasks s w).1 = Normal (getMesonTasks (buildDir s) (sourceDir s) (backend w)) /\
  mesonTasks (provideTasks s w).2 =
    Some (getMesonTasks (buildDir s) (sourceDir s) (backend w)).
Proof. intros Hnone. unfold provideTasks, bind, gets. by rewrite Hnone. Qed.

(** C8. One run of the change handler empties the cached task list; a
    second run in succession leaves the same cache, and makes the same four
    calls to the collaborators. When these four calls together are
    idempotent on the state of the collaborators, the second run leaves that
    state as the first did, so the task list recomputed on the next query,
    and the cache it fills, are the same after two runs as after one. *)
Theorem changeHandler_idempotent s w :
  let w1 := (changeHandler s w).2 in
  let w2 := (changeHandler s w1).2 in
  mesonTasks w1 = None /\
  mesonTasks w2 = mesonTasks w1 /\
  events_since w w1 =
    [EvClearCache; EvRebuildTests; EvGenEnvFile (buildDir s); EvExplorerRefresh] /\
  events_since w1 w2 = events_since w w1 /\
  ((forall b, downstream (buildDir s) (downstream (buildDir s) b) =
              downstream (buildDir s) b) ->
   backend w2 = backend w1 /\
   (provideTasks s w2).1 = (provideTasks s w1).1 /\
   mesonTasks (provideTasks s w2).2 = mesonTasks (provideTasks s w1).2).
Proof.
  intros w1 w2.
  destruct (changeHandler_run s w) as (_ & Hm1 & Hb1 & Hl1).
  destruct (changeHandler_run s w1) as (_ & Hm2 & Hb2 & Hl2).
  fold w1 in Hm1, Hb1, Hl1. fold w2 in Hm2, Hb2, Hl2.
  split; [done|]. split; [by rewrite Hm2, Hm1|].
  split; [by apply events_since_app|].
  split; [by rewrite (events_since_app _ _ _ Hl1), (events_since_app _ _ _ Hl2)|].
  intros Hidem.
  assert (Hb : backend w2 = backend w1) by by rewrite Hb2, Hb1, Hidem.
  split; [done|].
  destruct (provideTasks_recomputes s w1 Hm1) as [-> ->].
  destruct (provideTasks_recomputes s w2 Hm2) as [-> ->].
  by rewrite Hb.
Qed.

End ChangeHandler.

(** ** Start and restart of the language server *)

Section LanguageServer.

Context {Backend : Type} `{!Collaborators Backend}.
Implicit Types w : World Backend.

(** The start at activation, after the consent protocol. *)
Lemma startLanguageServer_run root server v w dl w0 :
  shouldDownload v w = (Normal dl, w0) ->
  let created := createLanguageServerClient server dl (backend w0) in
  let r := startLanguageServer root server v w in
  r.1 = Normal tt /\
  client r.2 = created /\
  log r.2 = log w0 ++ EvCreateLanguageServerClient server dl ::
    match created with
    | Some c =>
        if bool_decide (server = richServer) then
          [EvSubscribeConfigReload server; EvClient c update; EvPushClient c;
           EvClient c start; EvClient c reloadConfig;
           EvAppendLine
             "Not enabling the muon linter/formatter because Swift-MesonLSP is active."]
        else [EvActivateLinters root; EvActivateFormatters root]
    | None => [EvActivateLinters root; EvActivateFormatters root]
    end.
Proof.
  intros Hc. cbv zeta.
  remember (startLanguageServer root server v w) as r eqn:Hr.
  unfold startLanguageServer, bind at 1 in Hr. rewrite Hc in Hr.
  unfold bind at 1, newLanguageServerClient, bind at 1, gets at 1 in Hr.
  cbn beta iota in Hr. unfold richServer.
  destruct (createLanguageServerClient server dl (backend w0)) as [c|];
    [destruct (bool_decide (server = VString "Swift-MesonLSP"))|];
    subst r; cbn; rewrite <- ?app_assoc; done.
Qed.

(** The restart command without a client, after the consent protocol. *)
Lemma restartLanguageServer_absent s w dl w0 :
  client w = None ->
  shouldDownload (captured_downloadLanguageServer s) w = (Normal dl, w0) ->
  let created := createLanguageServerClient (server s) dl (backend w0) in
  let r := restartLanguageServer s w in
  r.1 = Normal tt /\
  client r.2 = created /\
  log r.2 = log w0 ++ EvCreateLanguageServerClient (server s) dl ::
    match created with
    | Some c => [EvPushClient c; EvClient c start; EvClient c reloadConfig]
    | None => []
    end.
Proof.
  intros Hnone Hc. cbv zeta.
  remember (restartLanguageServer s w) as r eqn:Hr.
  unfold restartLanguageServer, bind at 1, gets at 1 in Hr.
  cbn beta iota in Hr. rewrite Hnone in Hr. unfold bind at 1 in Hr. rewrite Hc in Hr.
  unfold bind at 1, newLanguageServerClient, bind at 1, gets at 1 in Hr.
  cbn beta iota in Hr.
  destruct (createLanguageServerClient (server s) dl (backend w0)) as [c|];
    subst r; cbn; rewrite <- ?app_assoc; done.
Qed.

(** The restart command with a client. *)
Lemma restartLanguageServer_present s w c :
  client w = Some c ->
  let r := restartLanguageServer s w in
  r.1 = Normal tt /\
  client r.2 = Some c /\
  settings r.2 = settings w /\
  log r.2 = log w ++ [EvClient c restart; EvClient c reloadConfig].
Proof.
  intros Hsome. cbv zeta.
  remember (restartLanguageServer s w) as r eqn:Hr.
  unfold restartLanguageServer, bind at 1, gets at 1 in Hr.
  cbn beta iota in Hr. rewrite Hsome in Hr.
  subst r. cbn. by rewrite <- app_assoc.
Qed.

(** On "ask" the consent protocol opens with its prompt. *)
Lemma shouldDownload_asks v w :
  as_boolean v = None ->
  exists dl w0 d,
    shouldDownload v w = (Normal dl, w0) /\ log w0 = log w ++ consentPrompt :: d.
Proof.
  intros Hv. unfold shouldDownload. rewrite Hv.
  unfold bind at 1, showInformationMessage. cbn beta iota zeta.
  repeat case_bool_decide; cbn; rewrite <- ?app_assoc; eauto.
Qed.

(** The consent protocol calls neither the linters nor the formatters. *)
Lemma shouldDownload_no_activation root v :
  steps (appends (fun ev => ev <> EvActivateLinters root /\ ev <> EvActivateFormatters root))
    (shouldDownload (Backend:=Backend) v).
Proof. solve_steps. Qed.

(** C3, amended. The start at activation completes, and it skips the
    activation of the linters and of the formatters exactly when a client
    was constructed and the configured server is "Swift-MesonLSP"; in every
    other case, a null client under that server included, it calls both. *)
Theorem linters_and_formatters_skipped_iff root server v w :
  let r := startLanguageServer root server v w in
  let skipped := is_Some (client r.2) /\ server = richServer in
  r.1 = Normal tt /\
  (skipped ->
   (EvActivateLinters root ∉ events_since w r.2) /\
   (EvActivateFormatters root ∉ events_since w r.2)) /\
  (~ skipped ->
   (EvActivateLinters root ∈ events_since w r.2) /\
   (EvActivateFormatters root ∈ events_since w r.2)).
Proof.
  cbv zeta.
  destruct (shouldDownload_total v w) as (dl & w0 & Hc).
  pose proof (shouldDownload_no_activation root v w) as (d0 & Hd0 & Hfree).
  rewrite Hc in Hd0. cbn [snd] in Hd0.
  destruct (startLanguageServer_run root server v w dl w0 Hc) as (Hr & Hcl & Hlog).
  rewrite Hd0, <- app_assoc in Hlog.
  rewrite (events_since_app _ _ _ Hlog), Hcl.
  assert (Hno : forall ev, (ev = EvActivateLinters root \/ ev = EvActivateFormatters root) ->
                           ev ∉ d0).
  { intros ev Hev Hin. rewrite Forall_forall in Hfree.
    destruct (Hfree ev Hin) as [? ?]. by destruct Hev. }
  split; [done|].
  destruct (createLanguageServerClient server dl (backend w0)) as [c|].
  - case_bool_decide as Hs.
    + split.
      * intros _.
        split; intros [Hin|Hin]%elem_of_app.
        1: by apply (Hno _ (or_introl eq_refl)) in Hin.
        2: by apply (Hno _ (or_intror eq_refl)) in Hin.
        all: repeat (apply elem_of_cons in Hin as [Hin|Hin]; [discriminate|]).
        all: by apply elem_of_nil in Hin.
      * intros Hnot. destruct Hnot. by split; [eexists|].
    + split.
      * by intros [_ ?].
      * intros _. rewrite !elem_of_app, !elem_of_cons. auto 10.
  - split.
    + by intros [[? [=]] _].
    + intros _. rewrite !elem_of_app, !elem_of_cons. auto 10.
Qed.

(** C4, amended. Without a client the restart command runs the consent
    protocol on the captured value and makes the call to the client factory
    that the start at activation makes from the same world; when a client
    results it is pushed to the subscriptions, started, and its
    configuration reloaded, in that order, and nothing else is called. With
    a client the command calls [restart] then [reloadConfig] on it, and
    nothing else: no prompt, no call to the factory, no activation of
    linters or formatters, no change of the settings. *)
Theorem restartLanguageServer_sequence s w :
  (exists dl w0,
     shouldDownload (captured_downloadLanguageServer s) (with_client None w)
       = (Normal dl, w0) /\
     let created := createLanguageServerClient (server s) dl (backend w0) in
     let r := restartLanguageServer s (with_client None w) in
     let fresh := startLanguageServer (root s) (server s)
                    (captured_downloadLanguageServer s) (with_client None w) in
     r.1 = Normal tt /\
     client r.2 = created /\
     client fresh.2 = created /\
     (exists rest,
        events_since w0 fresh.2 = EvCreateLanguageServerClient (server s) dl :: rest) /\
     events_since w0 r.2 =
       EvCreateLanguageServerClient (server s) dl ::
       match created with
       | Some c => [EvPushClient c; EvClient c start; EvClient c reloadConfig]
       | None => []
       end) /\
  (forall c,
     let r := restartLanguageServer s (with_client (Some c) w) in
     r.1 = Normal tt /\
     client r.2 = Some c /\
     settings r.2 = settings w /\
     events_since w r.2 = [EvClient c restart; EvClient c reloadConfig]).
Proof.
  split.
  - destruct (shouldDownload_total (captured_downloadLanguageServer s) (with_client None w))
      as (dl & w0 & Hc).
    exists dl, w0. split; [done|]. cbv zeta.
    destruct (restartLanguageServer_absent s (with_client None w) dl w0 eq_refl Hc)
      as (Hr & Hcl & Hlog).
    destruct (startLanguageServer_run (root s) (server s)
                (captured_downloadLanguageServer s) (with_client None w) dl w0 Hc)
      as (_ & Hcl' & Hlog').
    repeat split; try done.
    + eexists. by apply events_since_app.
    + by apply events_since_app.
  - intros c. cbv zeta.
    destruct (restartLanguageServer_present s (with_client (Some c) w) c eq_refl)
      as (Hr & Hcl & Hst & Hlog).
    repeat split; try done.
    by apply (events_since_app w).
Qed.

(** The restart command without a client prompts when the captured value
    is not a boolean, whatever the settings say by then. *)
Lemma restartLanguageServer_asks s w :
  as_boolean (captured_downloadLanguageServer s) = None ->
  client w = None ->
  exists d, log (restartLanguageServer s w).2 = log w ++ consentPrompt :: d.
Proof.
  intros Hv Hnone.
  destruct (shouldDownload_asks (captured_downloadLanguageServer s) w Hv)
    as (dl & w0 & d & Hc & Hd).
  destruct (restartLanguageServer_absent s w dl w0 Hnone Hc) as (_ & _ & Hlog).
  rewrite Hlog, Hd, <- app_assoc. by eexists.
Qed.

End LanguageServer.

(** ** The consent value the restart command uses *)

Section CapturedConsent.

Context {Backend : Type} `{!Collaborators Backend}.
Implicit Types w : World Backend.

(** The value captured by the closures is the setting as it was when
    activation began. *)
Lemma activate_captures_consent w s w1 :
  activate w = (Normal (Some s), w1) ->
  captured_downloadLanguageServer s = consentSetting w.
Proof.
  intros Hrun.
  destruct (activate_returns_session w s w1 Hrun) as (rt & others & f & fs & Hf & Hm).
  destruct (activate_stages w rt others f fs Hf Hm)
    as (mf & ch & w' & w2 & w3 & w4 & E1 & E2 & E3 & E4 & Eact).
  rewrite Eact in Hrun. injection Hrun as <- <-. cbn [captured_downloadLanguageServer].
  pose proof (resolveConfiguration_keeps_consent (f :: fs) w) as H1. rewrite E1 in H1.
  pose proof (registerProviders_keeps_consent (relativeBuildDir mf) w') as H2.
  rewrite E2 in H2.
  pose proof (configureOnOpenFlow_keeps_consent rt (f :: fs) mf (relativeBuildDir mf) ch w2)
    as H3.
  rewrite E3 in H3. unfold keeps in *. cbn [snd] in *. congruence.
Qed.

(** C9. When the consent setting is "ask" as activation begins, the
    closures capture "ask", and from then on the restart command, run in any
    world without a client, opens with the consent prompt: the settings of
    that world, where an earlier answer may have persisted a boolean, are
    not read. *)
Theorem restart_asks_with_captured_consent w s w1 :
  activate w = (Normal (Some s), w1) ->
  consentSetting w = VString "ask" ->
  captured_downloadLanguageServer s = VString "ask" /\
  forall w2,
    client w2 = None ->
    exists d, log (restartLanguageServer s w2).2 = log w2 ++ consentPrompt :: d.
Proof.
  intros Hrun Hask.
  assert (Hcap : captured_downloadLanguageServer s = VString "ask")
    by by rewrite (activate_captures_consent w s w1 Hrun).
  split; [done|]. intros w2 Hnone.
  apply restartLanguageServer_asks; [by rewrite Hcap|done].
Qed.

End CapturedConsent.

(** ** Dismissal of the prompts and of the pickers *)

Section Dismissal.

Context {Backend : Type} `{!Collaborators Backend}.
Implicit Types w : World Backend.

(** Hiding the task picker: no task is run, and nothing changes but the
    log of the two calls that showed the picker. *)
Lemma pickAndRunTask_hidden mode w :
  let r := pickAndRunTask mode None (with_taskPickAnswers (Hide :: taskPickAnswers w) w) in
  r.1 = Normal tt /\
  events_since w r.2 =
    [EvPickerShow ("Select target to " +:+ mode +:+ ".");
     EvPickerItems (map (fun task => {| tq_label := task_name task;
                                         tq_detail := task_detail task;
                                         tq_picked := false;
                                         tq_task := task |})
                        (getTasks mode (backend w)))] /\
  workspaceState r.2 = workspaceState w /\
  settings r.2 = settings w /\
  backend r.2 = backend w.
Proof.
  cbv zeta. repeat split. apply events_since_app. cbn. by rewrite <- app_assoc.
Qed.

(** The value of [configureOnOpen] after a dismissed prompt is still
    "ask". *)
Lemma askConfigureOnOpen_dismissed w :
  effectiveSetting SettingsKey.configureOnOpen (settings w) = VString "ask" ->
  let r := askConfigureOnOpen false (answering None w) in
  r.1 = Normal (VString "ask") /\
  log r.2 = log w ++ [EvShowInformationMessage configurePrompt
                        ["Yes"; "Always"; "No"; "Never"]] /\
  backend r.2 = backend w.
Proof.
  intros Hask. cbv zeta.
  remember (askConfigureOnOpen false (answering None w)) as r eqn:Hr.
  unfold askConfigureOnOpen, bind at 1, extensionConfiguration, gets in Hr.
  cbn beta iota in Hr. change (settings (answering None w)) with (settings w) in Hr.
  rewrite Hask in Hr. by subst r.
Qed.

(** The same after the answer "No", whose case only breaks. *)
Lemma askConfigureOnOpen_declined w :
  effectiveSetting SettingsKey.configureOnOpen (settings w) = VString "ask" ->
  (askConfigureOnOpen false (answering (Some "No") w)).1 = Normal (VString "ask").
Proof.
  intros Hask.
  remember (askConfigureOnOpen false (answering (Some "No") w)) as r eqn:Hr.
  unfold askConfigureOnOpen, bind at 1, extensionConfiguration, gets in Hr.
  cbn beta iota in Hr. change (settings (answering (Some "No") w)) with (settings w) in Hr.
  rewrite Hask in Hr. by subst r.
Qed.

(** C2. Where the code departs from the claim: with the setting on "ask",
    the build directory not configured and one candidate, dismissing the
    configure-on-open prompt leaves [configureOnOpen] at "ask", which is
    truthy, and the reconfigure task is run. *)
Theorem configure_prompt_dismissed_runs_reconfigure root f mesonFile buildDir w :
  checkMesonIsConfigured buildDir (backend w) = false ->
  effectiveSetting SettingsKey.configureOnOpen (settings w) = VString "ask" ->
  let r := configureOnOpenFlow root [f] mesonFile buildDir false (answering None w) in
  r.1 = Normal tt /\
  events_since w r.2 =
    [EvShowInformationMessage configurePrompt ["Yes"; "Always"; "No"; "Never"];
     EvRunFirstTask "reconfigure" None].
Proof.
  intros Hconf Hask. cbv zeta. rewrite configureOnOpenFlow_run.
  change (backend (answering None w)) with (backend w). rewrite Hconf.
  destruct (askConfigureOnOpen_dismissed w Hask) as (Hv & Hlog & _).
  destruct (askConfigureOnOpen false (answering None w)) as [c w0]. cbn in Hv, Hlog.
  subst c. rewrite configureProject_direct by done.
  split; [done|]. apply events_since_app.
  unfold runFirstTask, call, modify. cbn. by rewrite Hlog, <- app_assoc.
Qed.

End Dismissal.

(** * The properties on the concrete workspace *)

Section Concrete.

Lemma compare_code_consistent : consistent Demo.compare_code.
Proof.
  intros a b. unfold Demo.compare_code. rewrite (String.compare_antisym a b).
  by destruct (String.compare b a).
Qed.

Lemma downstream_demo_idempotent dir (b : Demo.Backend) :
  downstream dir (downstream dir b) = downstream dir b.
Proof. reflexivity. Qed.

(** C2, on the concrete workspace: one file, setting "ask", the prompt
    dismissed; the reconfigure task is run. *)
Lemma configure_prompt_dismissed_runs_reconfigure_witness :
  let w := Demo.world Demo.single Demo.noSettings ∅ [] [] in
  checkMesonIsConfigured "/ws/builddir" (backend w) = false /\
  effectiveSetting SettingsKey.configureOnOpen (settings w) = VString "ask" /\
  events_since w
    (configureOnOpenFlow "/ws" Demo.single "/ws/meson.build" "/ws/builddir" false
       (answering None w)).2 =
    [EvShowInformationMessage configurePrompt ["Yes"; "Always"; "No"; "Never"];
     EvRunFirstTask "reconfigure" None].
Proof.
  cbv zeta. split; [reflexivity|]. split; [reflexivity|].
  apply (configure_prompt_dismissed_runs_reconfigure "/ws" "/ws/meson.build"
           "/ws/meson.build" "/ws/builddir"
           (Demo.world Demo.single Demo.noSettings ∅ [] []));
    reflexivity.
Defined.

(** C3, the claim as stated fails: with "Swift-MesonLSP" configured and a
    download not allowed, the factory builds no client, and the linters and
    the formatters are activated. *)
Lemma rich_server_without_client_activates_linters :
  let w := Demo.world Demo.single Demo.noSettings ∅ [] [] in
  let r := startLanguageServer "/ws" richServer (VBoolean false) w in
  client r.2 = None /\
  log r.2 = [EvCreateLanguageServerClient richServer false;
             EvActivateLinters "/ws"; EvActivateFormatters "/ws"].
Proof. cbv zeta. split; reflexivity. Qed.

(** C4, the claim as stated fails: from the same world, with the download
    allowed and no client yet, the start at activation and the restart
    command make different calls. *)
Lemma restart_differs_from_fresh_start :
  let w := Demo.world Demo.single Demo.noSettings ∅ [] [] in
  let c := ClientHandle 1 in
  log (startLanguageServer "/ws" richServer (VBoolean true) w).2 =
    [EvCreateLanguageServerClient richServer true;
     EvSubscribeConfigReload richServer; EvClient c update; EvPushClient c;
     EvClient c start; EvClient c reloadConfig;
     EvAppendLine "Not enabling the muon linter/formatter because Swift-MesonLSP is active."] /\
  log (restartLanguageServer (Demo.session (VBoolean true)) w).2 =
    [EvCreateLanguageServerClient richServer true;
     EvPushClient c; EvClient c start; EvClient c reloadConfig].
Proof. cbv zeta. split; reflexivity. Qed.

(** C5, on the concrete workspace: the remembered file is among the two
    discovered ones, and the remembered flag is returned with it. *)
Lemma resolveConfiguration_prior_choice_witness :
  let w := Demo.world Demo.two Demo.noSettings Demo.remembered [] [] in
  persistedFile w = Some "/ws/a/meson.build" /\
  "/ws/a/meson.build" <> "" /\
  (resolveConfiguration Demo.two w).1 = Normal ("/ws/a/meson.build", true).
Proof.
  cbv zeta. split; [reflexivity|]. split; [discriminate|].
  destruct (resolveConfiguration_prior_choice "/ws/b/meson.build" ["/ws/a/meson.build"]
              "/ws/a/meson.build"
              (Demo.world Demo.two Demo.noSettings Demo.remembered [] []))
    as [Hin _]; [reflexivity|discriminate|].
  apply Hin. apply elem_of_cons. right. apply elem_of_cons. by left.
Defined.

(** C6, on the concrete workspace: two files and nothing remembered; the
    first is authoritative, and the items of the picker are in order. *)
Lemma configuration_picker_policy_witness :
  let w := Demo.world Demo.two Demo.noSettings ∅ [] [] in
  persistedFile w <> Some "" /\
  (resolveConfiguration Demo.two w).1 = Normal ("/ws/b/meson.build", false) /\
  configurationItems "/ws" Demo.two =
    [{| index := 1; label := "a/meson.build" |};
     {| index := 0; label := "b/meson.build" |}] /\
  Sorted (ascending byLabel) (configurationItems "/ws" Demo.two).
Proof.
  cbv zeta. split; [discriminate|].
  destruct (configuration_picker_policy "/ws" "/ws/b/meson.build" ["/ws/a/meson.build"]
              (Demo.world Demo.two Demo.noSettings ∅ [] []))
    as (_ & Hfirst & _ & _ & Hsorted); [discriminate|].
  split; [apply Hfirst; discriminate|].
  split; [reflexivity|].
  apply Hsorted, compare_code_consistent.
Defined.

(** C7, on the concrete workspace: two files, the user agrees to
    configure and picks the first item shown, which is the second file; the
    flag is [true] after activation. *)
Lemma configurationChosen_reset_then_set_witness :
  let w := Demo.world Demo.two Demo.noSettings ∅ [Some "Yes"; Some "Never"] [Some 0] in
  activate w = (Normal (Some Demo.session2), (activate w).2) /\
  workspaceState (activate w).2 !! "mesonbuild.configurationChosen" = Some (VBoolean true) /\
  exists picked,
    pickedAnother "/ws" Demo.two "/ws/b/meson.build" w picked /\
    workspaceState (activate w).2 !! "mesonbuild.mesonFile" = Some (VString picked).
Proof.
  cbv zeta.
  assert (Hrun : activate (Demo.world Demo.two Demo.noSettings ∅
                             [Some "Yes"; Some "Never"] [Some 0])
                 = (Normal (Some Demo.session2),
                    (activate (Demo.world Demo.two Demo.noSettings ∅
                                 [Some "Yes"; Some "Never"] [Some 0])).2))
    by (vm_compute; reflexivity).
  assert (Hv : workspaceState (activate (Demo.world Demo.two Demo.noSettings ∅
                                 [Some "Yes"; Some "Never"] [Some 0])).2
               !! "mesonbuild.configurationChosen" = Some (VBoolean true))
    by (vm_compute; reflexivity).
  split; [exact Hrun|]. split; [exact Hv|].
  destruct configurationChosen_reset_then_set as (_ & Hset & _).
  destruct (Hset _ _ _ _ Hrun Hv) as (_ & picked & Hpick & Hfile & _).
  exists picked. split; [exact Hpick|exact Hfile].
Defined.

(** C8, on the concrete workspace, whose four downstream calls are
    idempotent: the task list recomputed after two runs of the handler is
    the one recomputed after one. *)
Lemma changeHandler_idempotent_witness :
  let s := Demo.session (VString "ask") in
  let w := Demo.world Demo.single Demo.noSettings ∅ [] [] in
  let w1 := (changeHandler s w).2 in
  let w2 := (changeHandler s w1).2 in
  (forall b : Demo.Backend,
     downstream (buildDir s) (downstream (buildDir s) b) = downstream (buildDir s) b) /\
  mesonTasks w2 = None /\
  (provideTasks s w2).1 = (provideTasks s w1).1.
Proof.
  cbv zeta.
  destruct (changeHandler_idempotent (Demo.session (VString "ask"))
              (Demo.world Demo.single Demo.noSettings ∅ [] []))
    as (Hnone & Hsame & _ & _ & Hrecompute).
  split; [apply downstream_demo_idempotent|].
  split; [by rewrite Hsame|].
  apply Hrecompute, downstream_demo_idempotent.
Defined.

(** C9, on the concrete workspace: the setting is "ask", the user answers
    "Never" at activation, which persists [false] and leaves no client; the
    restart command prompts all the same. *)
Lemma restart_asks_with_captured_consent_witness :
  let w := Demo.world Demo.single Demo.neverConfigure ∅ [Some "Never"] [] in
  let s := Demo.session (VString "ask") in
  let w1 := (activate w).2 in
  activate w = (Normal (Some s), w1) /\
  consentSetting w = VString "ask" /\
  consentSetting w1 = VBoolean false /\
  client w1 = None /\
  exists d, log (restartLanguageServer s w1).2 = log w1 ++ consentPrompt :: d.
Proof.
  cbv zeta.
  assert (Hrun : activate (Demo.world Demo.single Demo.neverConfigure ∅ [Some "Never"] [])
                 = (Normal (Some (Demo.session (VString "ask"))),
                    (activate (Demo.world Demo.single Demo.neverConfigure ∅
                                 [Some "Never"] [])).2))
    by (vm_compute; reflexivity).
  split; [exact Hrun|]. split; [reflexivity|].
  split; [vm_compute; reflexivity|]. split; [vm_compute; reflexivity|].
  destruct (restart_asks_with_captured_consent _ _ _ Hrun eq_refl) as [_ Hasks].
  apply Hasks. vm_compute. reflexivity.
Defined.

(** C10, on the concrete workspace: two candidates, the first one
    authoritative; the picker dismissed, then the authoritative file picked
    (it is the second item shown). *)
Lemma configuration_pick_dismissed_or_unchanged_witness :
  let w := Demo.world Demo.two Demo.noSettings ∅ [] [] in
  truthy (VBoolean true) = true /\
  1 < length Demo.two /\
  events_since w
    (configureProject "/ws" Demo.two "/ws/b/meson.build" false (VBoolean true)
       (picking None w)).2 =
    [EvShowQuickPick (configurationItems "/ws" Demo.two)] /\
  events_since w
    (configureProject "/ws" Demo.two "/ws/b/meson.build" false (VBoolean true)
       (picking (Some 1) w)).2 =
    [EvShowQuickPick (configurationItems "/ws" Demo.two);
     EvRunFirstTask "reconfigure" None].
Proof.
  cbv zeta. split; [reflexivity|]. split; [cbn; lia|].
  destruct (configuration_pick_dismissed_or_unchanged "/ws" Demo.two "/ws/b/meson.build"
              (VBoolean true) (Demo.world Demo.two Demo.noSettings ∅ [] []))
    as [Hdismissed Hsame]; [reflexivity|cbn; lia|].
  destruct Hdismissed as (_ & Hevents & _).
  split; [exact Hevents|].
  destruct (Hsame 1 {| index := 0; label := "b/meson.build" |}) as (_ & Hevents' & _);
    [reflexivity|reflexivity|].
  exact Hevents'.
Defined.

End Concrete.

(** * Further properties of the closures *)

(** ** The task pick *)

Section TaskPick.

Context {Backend : Type} `{!Collaborators Backend}.
Implicit Types w : World Backend.

(** [pickAndRunTask] as a function of the name and of the answer: it always
    completes, and logs what it did. *)
Lemma pickAndRunTask_run mode name w :
  let r := pickAndRunTask mode name w in
  r.1 = Normal tt /\
  log r.2 = log w ++
    if named name then [EvRunFirstTask mode name]
    else EvPickerShow ("Select target to " +:+ mode +:+ ".") ::
         EvPickerItems (taskItems mode w) ::
         match taskPickAnswers w with
         | Accept n :: _ =>
             match getTasks mode (backend w) !! n with
             | Some task => [EvRunTask task]
             | None => []
             end
         | _ => []
         end.
Proof.
  cbv zeta. remember (pickAndRunTask mode name w) as r eqn:Hr.
  unfold pickAndRunTask in Hr. fold (named name) in Hr. unfold taskItems.
  destruct (named name).
  - by subst r.
  - subst r. unfold bind, try_catch, pickTask, bind, emit, gets, modify. cbn.
    destruct (taskPickAnswers w) as [|[n|] rest]; cbn.
    + by rewrite <- app_assoc.
    + rewrite list_lookup_fmap.
      destruct (getTasks mode (backend w) !! n) as [task|]; cbn;
        by rewrite <- !app_assoc.
    + by rewrite <- app_assoc.
Qed.

(** X1. A command given a non-empty name runs the first task of that name
    at once: the picker is not shown, and the answers the user has in store
    are not consumed. *)
Theorem pickAndRunTask_named_runs_directly mode n w :
  n <> "" ->
  let r := pickAndRunTask mode (Some n) w in
  r.1 = Normal tt /\
  events_since w r.2 = [EvRunFirstTask mode (Some n)] /\
  taskPickAnswers r.2 = taskPickAnswers w.
Proof.
  intros Hn. cbv zeta.
  destruct (pickAndRunTask_run mode (Some n) w) as [Hr Hlog].
  assert (Hnamed : named (Some n) = true).
  { cbn. by destruct (String.eqb_spec n ""). }
  rewrite Hnamed in Hlog. split; [done|]. split; [by apply events_since_app|].
  unfold pickAndRunTask. fold (named (Some n)). by rewrite Hnamed.
Qed.

(** X2. Without a name, and with the empty string for a name, the picker
    is shown with one item per task of the mode, in the order [getTasks]
    gives them. Hiding the picker rejects the promise of [pickTask]; the
    rejection is caught, no task is run and the command completes. Accepting
    runs the task of the active item, and runs nothing when there is no
    active item. *)
Theorem pickAndRunTask_picker_outcomes mode w rest :
  let shown := [EvPickerShow ("Select target to " +:+ mode +:+ ".");
                EvPickerItems (taskItems mode w)] in
  pickAndRunTask mode (Some "") w = pickAndRunTask mode None w /\
  (pickTask mode (with_taskPickAnswers (Hide :: rest) w)).1 = Rejected /\
  (let r := pickAndRunTask mode None (with_taskPickAnswers (Hide :: rest) w) in
   r.1 = Normal tt /\ events_since w r.2 = shown) /\
  (forall n,
     let r := pickAndRunTask mode None (with_taskPickAnswers (Accept n :: rest) w) in
     r.1 = Normal tt /\
     events_since w r.2 =
       shown ++ match getTasks mode (backend w) !! n with
                | Some task => [EvRunTask task]
                | None => []
                end).
Proof.
  cbv zeta. split; [done|]. split; [done|]. split.
  - destruct (pickAndRunTask_run mode None (with_taskPickAnswers (Hide :: rest) w))
      as [Hr Hlog].
    split; [done|]. by apply events_since_app.
  - intros n.
    destruct (pickAndRunTask_run mode None (with_taskPickAnswers (Accept n :: rest) w))
      as [Hr Hlog].
    split; [done|]. by apply events_since_app.
Qed.

End TaskPick.

(** ** The commands that run tasks *)

#[global] Hint Unfold taskCommand notify : programs.

Section TaskCommands.

Context {Backend : Type} `{!Collaborators Backend}.
Implicit Types w : World Backend.

Lemma taskCommand_log c w :
  exists d,
    (taskCommand c w).1 = Normal tt /\
    log (taskCommand c w).2 = log w ++ d /\
    length (List.filter isTaskRun d) <= 1 /\
    Forall taskCommandEvent d.
Proof.
  assert (Hpick : forall mode name,
    exists d,
      (pickAndRunTask mode name w).1 = Normal tt /\
      log (pickAndRunTask mode name w).2 = log w ++ d /\
      length (List.filter isTaskRun d) <= 1 /\
      Forall taskCommandEvent d).
  { intros mode name. destruct (pickAndRunTask_run mode name w) as [Hr Hlog].
    eexists. split; [done|]. split; [exact Hlog|].
    destruct (named name); [by repeat constructor|].
    destruct (taskPickAnswers w) as [|[n|] ?]; [by repeat constructor| |by repeat constructor].
    destruct (getTasks mode (backend w) !! n); by repeat constructor. }
  destruct c; cbn [taskCommand]; try apply Hpick.
  all: eexists; split; [done|]; split; [reflexivity|]; by repeat constructor.
Qed.

(** X3. Every command that runs tasks completes, and runs at most one
    task: its log holds at most one call of [runFirstTask] or [runTask],
    beside the display of the task picker. It shows no information message
    and leaves the settings, the workspace state, the client and the cached
    task list as they are. The reconfigure, install and clean commands never
    open the picker: each is exactly one call of [runFirstTask] with its
    mode and no name. *)
Theorem taskCommand_runs_at_most_one_task c w :
  let r := taskCommand c w in
  r.1 = Normal tt /\
  length (List.filter isTaskRun (events_since w r.2)) <= 1 /\
  Forall taskCommandEvent (events_since w r.2) /\
  settings r.2 = settings w /\
  workspaceState r.2 = workspaceState w /\
  client r.2 = client w /\
  mesonTasks r.2 = mesonTasks w /\
  events_since w (taskCommand mesonbuild_reconfigure w).2
    = [EvRunFirstTask "reconfigure" None] /\
  events_since w (taskCommand mesonbuild_install w).2 = [EvRunFirstTask "install" None] /\
  events_since w (taskCommand mesonbuild_clean w).2 = [EvRunFirstTask "clean" None].
Proof.
  cbv zeta. destruct (taskCommand_log c w) as (d & Hr & Hlog & Hone & Hev).
  rewrite (events_since_app _ _ _ Hlog).
  assert (Hs : steps (keeps settings) (taskCommand c)) by (destruct c; solve_steps).
  assert (Hw : steps (keeps workspaceState) (taskCommand c)) by (destruct c; solve_steps).
  assert (Hc : steps (keeps client) (taskCommand c)) by (destruct c; solve_steps).
  assert (Hm : steps (keeps mesonTasks) (taskCommand c)) by (destruct c; solve_steps).
  repeat split; try done.
  - apply Hs.
  - apply Hw.
  - apply Hc.
  - apply Hm.
  - by apply events_since_app.
  - by apply events_since_app.
  - by apply events_since_app.
Qed.

End TaskCommands.

(** ** The cached task list *)

Section TaskCache.

Context {Backend : Type} `{!Collaborators Backend}.
Implicit Types w : World Backend.

(** X4. The task provider memoises: once [provideTasks] has answered, it
    gives the same list again without asking the task graph, whatever has
    become of the collaborators, and leaves the world as it is. A filled
    cache is served as it is. After the change handler has run, the next
    query asks the task graph as the handler's four calls left it. *)
Theorem provideTasks_serves_cache_until_invalidated s w :
  let r := provideTasks s w in
  (exists tasks,
     r.1 = Normal tasks /\
     mesonTasks r.2 = Some tasks /\
     (forall b, provideTasks s (with_backend b r.2) = (Normal tasks, with_backend b r.2))) /\
  (forall cached, mesonTasks w = Some cached -> r = (Normal cached, w)) /\
  (provideTasks s (changeHandler s w).2).1 =
    Normal (getMesonTasks (buildDir s) (sourceDir s) (downstream (buildDir s) (backend w))).
Proof.
  cbv zeta. split; [|split].
  - destruct (mesonTasks w) as [cached|] eqn:Hm.
    + assert (Hr : provideTasks s w = (Normal cached, w))
        by (unfold provideTasks, bind, gets; by rewrite Hm).
      rewrite Hr. exists cached. split; [done|]. split; [done|]. intros b.
      unfold provideTasks, bind, gets. cbn. by rewrite Hm.
    + assert (Hr : provideTasks s w =
                   (Normal (getMesonTasks (buildDir s) (sourceDir s) (backend w)),
                    with_mesonTasks
                      (Some (getMesonTasks (buildDir s) (sourceDir s) (backend w))) w))
        by (unfold provideTasks, bind, gets; by rewrite Hm).
      rewrite Hr. eexists. split; [reflexivity|]. split; [reflexivity|]. by intros b.
  - intros cached Hm. unfold provideTasks, bind, gets. by rewrite Hm.
  - destruct (changeHandler_run s w) as (_ & Hnone & Hb & _).
    destruct (provideTasks_recomputes s _ Hnone) as [-> _]. by rewrite Hb.
Qed.


End TaskCache.

(** ** Resolution after resolution, and after a pick *)

Section Resolving.

Context {Backend : Type} `{!Collaborators Backend}.
Implicit Types w : World Backend.

(** The workspace state a resolution pass leaves. *)
Lemma resolveConfiguration_workspaceState files w mf ch w' :
  resolveConfiguration files w = (Normal (mf, ch), w') ->
  workspaceState w' =
    delete "mesonbuild.configurationChosen"
      (<["mesonbuild.sourceDir" := VString (dirname mf)]>
         (<["mesonbuild.buildDir" := VString (relativeBuildDir mf)]>
            (<["mesonbuild.mesonFile" := VString mf]> (workspaceState w)))).
Proof.
  unfold resolveConfiguration. unfold bind at 1 2.
  destruct (workspaceState_get_string _ w) as [[saved|] w0] eqn:E0; [|by intros].
  assert (Hw0 : w0 = w) by (unfold workspaceState_get_string, gets in E0; congruence).
  match goal with |- context [match ?m w0 with _ => _ end] =>
    assert (Hk : steps (keeps workspaceState) m) by solve_steps;
    specialize (Hk w0); destruct (m w0) as [[[o c]|] w1] end; [|by intros].
  unfold bind at 1.
  match goal with |- context [match ?m w1 with _ => _ end] =>
    assert (Hk' : steps (keeps workspaceState) m)
      by (destruct o, files; solve_steps);
    specialize (Hk' w1); destruct (m w1) as [[first|] w2] end; [|by intros].
  unfold keeps in *. cbn [snd] in *.
  unfold bind, workspaceState_update, modify, ret. cbn.
  intros [= <- <- <-]. cbn. by rewrite Hk', Hk, Hw0.
Qed.

(** The file a resolution pass settles on is a discovered file, or the
    empty persisted path. *)
Lemma resolveConfiguration_member f fs w mf ch :
  (resolveConfiguration (f :: fs) w).1 = Normal (mf, ch) ->
  mf ∈ f :: fs \/ (mf = "" /\ persistedFile w = Some "").
Proof.
  rewrite resolveConfiguration_result. intros Hres.
  destruct (persistedFile w) as [saved|].
  - destruct (String.eqb_spec saved "") as [Heq|Hneq].
    + right. split; congruence.
    + left. case_bool_decide as Hin.
      * congruence.
      * assert (f = mf) as <- by congruence. by left.
  - left. assert (f = mf) as <- by congruence. by left.
Qed.

(** X6. Resolving twice in succession on the same discovered files: the
    second pass settles on the same file as the first and leaves the same
    workspace state, and its [configurationChosen] is [false] whatever the
    first pass returned: a persisted flag is honoured by one pass only. *)
Theorem resolveConfiguration_twice f fs w :
  let r1 := resolveConfiguration (f :: fs) w in
  let r2 := resolveConfiguration (f :: fs) r1.2 in
  exists mf ch,
    r1.1 = Normal (mf, ch) /\
    r2.1 = Normal (mf, false) /\
    workspaceState r2.2 = workspaceState r1.2.
Proof.
  cbv zeta.
  destruct (resolveConfiguration_total f fs w) as ([mf ch] & w1 & E1). rewrite E1.
  cbn [fst snd]. exists mf, ch. split; [done|].
  pose proof (resolveConfiguration_persists _ _ _ _ _ E1) as (Hfile & Hbuild & Hsrc & Hnone).
  assert (Hmem := resolveConfiguration_member f fs w mf ch). rewrite E1 in Hmem.
  specialize (Hmem eq_refl).
  assert (Hr2 : (resolveConfiguration (f :: fs) w1).1 = Normal (mf, false)).
  { rewrite resolveConfiguration_result. unfold persistedFile, persistedChosen.
    rewrite Hfile, Hnone. destruct (String.eqb_spec mf "") as [->|Hne]; [done|].
    destruct Hmem as [Hin|[? _]]; [|done]. by rewrite bool_decide_eq_true_2. }
  split; [done|].
  destruct (resolveConfiguration (f :: fs) w1) as [c w2] eqn:E2. cbn in Hr2. subst c.
  cbn [snd]. rewrite (resolveConfiguration_workspaceState _ _ _ _ _ E2).
  rewrite (insert_id _ _ _ Hfile), (insert_id _ _ _ Hbuild), (insert_id _ _ _ Hsrc).
  by apply delete_id.
Qed.

(** X7. After the user has picked another file in the configuration quick
    pick, the persisted [buildDir] and [sourceDir] are still those written
    by the resolution pass; the next resolution pass on the same files
    settles on the file picked, returns [configurationChosen = true], and
    persists the build directory of the file picked. *)
Theorem pick_then_resolve root f fs mesonFile v w n sel picked :
  truthy v = true ->
  1 < length (f :: fs) ->
  configurationItems root (f :: fs) !! n = Some sel ->
  (f :: fs) !! index sel = Some picked ->
  picked <> mesonFile ->
  picked <> "" ->
  let r := configureProject root (f :: fs) mesonFile false v (picking (Some n) w) in
  let r' := resolveConfiguration (f :: fs) r.2 in
  workspaceState r.2 !! "mesonbuild.buildDir" = workspaceState w !! "mesonbuild.buildDir" /\
  workspaceState r.2 !! "mesonbuild.sourceDir" = workspaceState w !! "mesonbuild.sourceDir" /\
  r'.1 = Normal (picked, true) /\
  workspaceState r'.2 !! "mesonbuild.buildDir" = Some (VString (relativeBuildDir picked)) /\
  workspaceState r'.2 !! "mesonbuild.configurationChosen" = None.
Proof.
  intros Hv Hlen Hsel Hfile Hne Hnonempty. cbv zeta.
  destruct (configureProject_other root (f :: fs) mesonFile v w n sel picked
              Hv Hlen Hsel Hfile Hne) as (_ & _ & Hws & _).
  split; [by rewrite Hws, !lookup_insert_ne|].
  split; [by rewrite Hws, !lookup_insert_ne|].
  assert (Hres : (resolveConfiguration (f :: fs)
                    (configureProject root (f :: fs) mesonFile false v
                       (picking (Some n) w)).2).1 = Normal (picked, true)).
  { rewrite resolveConfiguration_result. unfold persistedFile, persistedChosen.
    rewrite Hws, lookup_insert_eq.
    rewrite lookup_insert_ne, lookup_insert_eq by done.
    destruct (String.eqb_spec picked ""); [done|].
    rewrite bool_decide_eq_true_2; [done|]. by eapply list_elem_of_lookup_2. }
  split; [done|].
  destruct (resolveConfiguration _ _) as [c w2] eqn:E2. cbn in Hres. subst c.
  by apply resolveConfiguration_persists in E2 as (_ & ? & _ & ?).
Qed.

End Resolving.

(** ** The indices of the quick-pick items *)

Section ItemIndices.

Context {Backend : Type} `{!Collaborators Backend}.

Lemma candidates_indices root files :
  index <$> candidates root files = seq 0 (length files).
Proof.
  unfold candidates. rewrite fmap_imap.
  rewrite (imap_ext _ (fun j _ => id j)); [|done].
  by rewrite imap_seq_0, list_fmap_id.
Qed.

(** X8. Sorting the items by label keeps the link between an item and its
    file: the indices of the items shown are the positions of the discovered
    files, each once, and the label of every item is the relative path of
    the file at its index. So [mesonFiles[selection.index]] is the file the
    user saw, wherever the sort put it. *)
Theorem configurationItems_indices root files :
  index <$> configurationItems root files ≡ₚ seq 0 (length files) /\
  NoDup (index <$> configurationItems root files) /\
  (forall sel,
     sel ∈ configurationItems root files ->
     exists file, files !! index sel = Some file /\ label sel = relative root file).
Proof.
  assert (Hp : index <$> configurationItems root files ≡ₚ seq 0 (length files)).
  { rewrite configurationItems_Permutation. by rewrite candidates_indices. }
  split; [done|]. split.
  - rewrite Hp. apply NoDup_seq.
  - apply configurationItems_index.
Qed.

End ItemIndices.

Section SortedInput.

Context {A : Type} (cmp : A -> A -> Z).

(** The sort leaves a list that is already in ascending order as it is. *)
Lemma array_sort_sorted_input l :
  Sorted (ascending cmp) l -> array_sort cmp l = l.
Proof.
  induction 1 as [|x l Hl IH Hhd]; [done|].
  cbn. fold (array_sort cmp l). rewrite IH.
  destruct Hhd as [|y l' Hxy]; [done|].
  cbn. unfold ascending in Hxy.
  destruct (Z.ltb_spec 0 (cmp x y)); [lia|done].
Qed.

End SortedInput.

Section DiscoveryOrder.

Context {Backend : Type} `{!Collaborators Backend}.

(** X9. Files discovered in the ascending order of their relative paths
    are offered in discovery order: the sort leaves the items as they were
    built. *)
Theorem configurationItems_discovery_order root files :
  Sorted (ascending byLabel) (candidates root files) ->
  configurationItems root files = candidates root files.
Proof. apply array_sort_sorted_input. Qed.

End DiscoveryOrder.

(** ** The outcome of activation *)

Section ActivationOutcome.

Context {Backend : Type} `{!Collaborators Backend}.
Implicit Types w : World Backend.

(** X10. Activation by cases on the workspace: without workspace folders,
    and with folders but no [meson.build], it returns at once and leaves the
    world as it is, nothing registered, nothing persisted; with an empty
    array of folders it rejects, the world as it is; with a folder and a
    file it completes and returns the environment of its closures, whose
    root is the first folder and whose files are the discovered ones. *)
Theorem activate_outcome w :
  match workspaceFolders w, rootMesonFiles (backend w) with
  | None, _ => activate w = (Normal None, w)
  | Some [], _ => activate w = (Rejected, w)
  | Some (_ :: _), [] => activate w = (Normal None, w)
  | Some (first :: _), f :: fs =>
      exists s w',
        activate w = (Normal (Some s), w') /\
        root s = first /\
        mesonFiles s = f :: fs
  end.
Proof.
  destruct (workspaceFolders w) as [[|first others]|] eqn:Hf.
  - by apply activate_without_root.
  - destruct (rootMesonFiles (backend w)) as [|f fs] eqn:Hm.
    + by apply (activate_without_files w first others).
    + destruct (activate_stages w first others f fs Hf Hm)
        as (mf & ch & w1 & w2 & w3 & w4 & _ & _ & _ & _ & Hact).
      by eexists _, _.
  - by apply activate_without_folder.
Qed.

(** X11. What holds of the environment activation returns: its files are
    the discovered ones; its build and source directories are derived from
    its authoritative file, and they are the ones persisted in the workspace
    state when activation ends, also after a pick of another file; the
    consent value it captures is the setting as activation began; and,
    unless the persisted path was the empty string, its authoritative file
    is one of the discovered files. *)
Theorem activate_session_invariant w s w' :
  activate w = (Normal (Some s), w') ->
  mesonFiles s = rootMesonFiles (backend w) /\
  buildDir s = relativeBuildDir (mesonFile s) /\
  sourceDir s = dirname (mesonFile s) /\
  workspaceState w' !! "mesonbuild.buildDir" = Some (VString (buildDir s)) /\
  workspaceState w' !! "mesonbuild.sourceDir" = Some (VString (sourceDir s)) /\
  captured_downloadLanguageServer s = consentSetting w /\
  (persistedFile w <> Some "" -> mesonFile s ∈ mesonFiles s).
Proof.
  intros Hrun.
  pose proof (activate_captures_consent w s w' Hrun) as Hcap.
  destruct (activate_returns_session w s w' Hrun) as (rt & others & f & fs & Hf & Hm).
  destruct (activate_stages w rt others f fs Hf Hm)
    as (mf & ch & w1 & w2 & w3 & w4 & E1 & E2 & E3 & E4 & Eact).
  rewrite Eact in Hrun. injection Hrun as <- <-.
  cbn [mesonFiles buildDir sourceDir mesonFile captured_downloadLanguageServer] in *.
  change (workspaceState (with_log ?l w4)) with (workspaceState w4).
  pose proof (resolveConfiguration_persists _ _ _ _ _ E1) as (_ & Hbuild & Hsrc & _).
  pose proof (registerProviders_keeps_workspaceState (relativeBuildDir mf) w1) as Hws2.
  rewrite E2 in Hws2.
  pose proof (startLanguageServer_keeps_workspaceState rt
    (effectiveSetting SettingsKey.languageServer (settings w3)) (consentSetting w3) w3)
    as Hws4.
  rewrite E4 in Hws4. unfold keeps in *. cbn [snd] in *.
  assert (Hkeys : workspaceState w3 !! "mesonbuild.buildDir"
                    = workspaceState w2 !! "mesonbuild.buildDir" /\
                  workspaceState w3 !! "mesonbuild.sourceDir"
                    = workspaceState w2 !! "mesonbuild.sourceDir").
  { destruct (configureOnOpenFlow_workspaceState rt (f :: fs) mf (relativeBuildDir mf) ch w2)
      as [Hsame|(picked & _ & Hw3 & _)]; rewrite E3 in *; cbn [snd] in *.
    - by rewrite Hsame.
    - by rewrite Hw3, !lookup_insert_ne. }
  destruct Hkeys as [Hkb Hks].
  split; [done|]. split; [done|]. split; [done|].
  split; [by rewrite Hws4, Hkb, Hws2|].
  split; [by rewrite Hws4, Hks, Hws2|].
  split; [done|].
  intros Hwf.
  assert (Hmem := resolveConfiguration_member f fs w mf ch). rewrite E1 in Hmem.
  destruct (Hmem eq_refl) as [Hin|[_ Hempty]]; [done|by destruct Hwf].
Qed.

End ActivationOutcome.

(** ** The configure-on-open flow without a prompt *)

Section ConfigureWithoutPrompt.

Context {Backend : Type} `{!Collaborators Backend}.
Implicit Types w : World Backend.

(** X12. When the build directory is configured the flow only rebuilds
    the tests. When it is not: after an explicit choice of file the
    reconfigure task is run at once, with neither the prompt nor the picker,
    whatever the setting; with the setting [false] and no choice made the
    flow does nothing at all; with the setting [true] and at most one
    candidate the reconfigure task is run at once. *)
Theorem configureOnOpenFlow_without_prompt root files mesonFile buildDir w :
  (checkMesonIsConfigured buildDir (backend w) = true ->
   forall chosen,
     let r := configureOnOpenFlow root files mesonFile buildDir chosen w in
     r.1 = Normal tt /\ events_since w r.2 = [EvRebuildTests]) /\
  (checkMesonIsConfigured buildDir (backend w) = false ->
   (let r := configureOnOpenFlow root files mesonFile buildDir true w in
    r.1 = Normal tt /\ events_since w r.2 = [EvRunFirstTask "reconfigure" None]) /\
   (effectiveSetting SettingsKey.configureOnOpen (settings w) = VBoolean false ->
    configureOnOpenFlow root files mesonFile buildDir false w = (Normal tt, w)) /\
   (effectiveSetting SettingsKey.configureOnOpen (settings w) = VBoolean true ->
    length files <= 1 ->
    let r := configureOnOpenFlow root files mesonFile buildDir false w in
    r.1 = Normal tt /\ events_since w r.2 = [EvRunFirstTask "reconfigure" None])).
Proof.
  split.
  - intros Hc chosen. cbv zeta. rewrite configureOnOpenFlow_run, Hc.
    split; [done|]. by apply events_since_app.
  - intros Hc. split; [|split].
    + cbv zeta. rewrite configureOnOpenFlow_run, Hc.
      assert (Ha : askConfigureOnOpen true w = (Normal (VBoolean true), w)) by done.
      rewrite Ha, configureProject_direct by done.
      split; [done|]. by apply events_since_app.
    + intros Hset. rewrite configureOnOpenFlow_run, Hc.
      assert (Ha : askConfigureOnOpen false w = (Normal (VBoolean false), w)).
      { unfold askConfigureOnOpen, bind, extensionConfiguration, gets. by rewrite Hset. }
      by rewrite Ha, configureProject_falsy.
    + intros Hset Hlen. cbv zeta. rewrite configureOnOpenFlow_run, Hc.
      assert (Ha : askConfigureOnOpen false w = (Normal (VBoolean true), w)).
      { unfold askConfigureOnOpen, bind, extensionConfiguration, gets. by rewrite Hset. }
      rewrite Ha, configureProject_direct; [|done|].
      * split; [done|]. by apply events_since_app.
      * apply andb_false_iff. right. apply Nat.ltb_ge. lia.
Qed.

(** X13. The answers that accept at the configure-on-open prompt, the
    setting being "ask" and no choice made: "Yes" makes [configureOnOpen]
    [true] for this activation and writes no setting; "Always" makes it
    [true] and persists [true] in the workspace scope. "Never" persists
    [false] in the workspace scope. Nothing is written to the global
    scope. *)
Theorem askConfigureOnOpen_answers w :
  effectiveSetting SettingsKey.configureOnOpen (settings w) = VString "ask" ->
  let prompt := EvShowInformationMessage configurePrompt ["Yes"; "Always"; "No"; "Never"] in
  (let r := askConfigureOnOpen false (answering (Some "Yes") w) in
   r.1 = Normal (VBoolean true) /\
   settings r.2 = settings w /\
   events_since w r.2 = [prompt]) /\
  (let r := askConfigureOnOpen false (answering (Some "Always") w) in
   r.1 = Normal (VBoolean true) /\
   workspaceScope (settings r.2) !! SettingsKey.configureOnOpen = Some (VBoolean true) /\
   globalScope (settings r.2) = globalScope (settings w) /\
   events_since w r.2 =
     [prompt; EvExtensionConfigurationSet SettingsKey.configureOnOpen (VBoolean true)
                Workspace]) /\
  (let r := askConfigureOnOpen false (answering (Some "Never") w) in
   workspaceScope (settings r.2) !! SettingsKey.configureOnOpen = Some (VBoolean false) /\
   globalScope (settings r.2) = globalScope (settings w) /\
   events_since w r.2 =
     [prompt; EvExtensionConfigurationSet SettingsKey.configureOnOpen (VBoolean false)
                Workspace]).
Proof.
  intros Hask. cbv zeta.
  assert (Hrun : forall a,
    askConfigureOnOpen false (answering a w) =
      (response <- showInformationMessage configurePrompt ["Yes"; "Always"; "No"; "Never"];;
       if bool_decide (response = Some "No") then ret (VString "ask")
       else if bool_decide (response = Some "Never") then
         extensionConfigurationSet SettingsKey.configureOnOpen (VBoolean false) Workspace;;;
         ret (VString "ask")
       else if bool_decide (response = Some "Yes") then ret (VBoolean true)
       else if bool_decide (response = Some "Always") then
         extensionConfigurationSet SettingsKey.configureOnOpen (VBoolean true) Workspace;;;
         ret (VBoolean true)
       else ret (VString "ask")) (answering a w)).
  { intros a. unfold askConfigureOnOpen, bind at 1, extensionConfiguration, gets.
    cbn beta iota. change (settings (answering a w)) with (settings w).
    by rewrite Hask. }
  rewrite !Hrun. unfold events_since.
  repeat split; cbn; decide_closed; try done.
  all: try (rewrite <- ?app_assoc, drop_app_length; reflexivity).
  all: apply lookup_insert_eq.
Qed.

End ConfigureWithoutPrompt.

(** ** Consent before download *)

Section ConsentBeforeDownload.

Context {Backend : Type} `{!Collaborators Backend}.
Implicit Types w : World Backend.

(** The consent protocol answers [true] only on a [true] setting or on the
    answer "Yes". *)
Lemma shouldDownload_true v w :
  (shouldDownload v w).1 = Normal true ->
  v = VBoolean true \/
  (as_boolean v = None /\ head (informationAnswers w) = Some (Some "Yes")).
Proof.
  unfold shouldDownload. destruct v as [str|b]; cbn [as_boolean].
  - intros Hrun. right. split; [done|].
    unfold bind at 1, showInformationMessage in Hrun. cbn beta iota zeta in Hrun.
    destruct (informationAnswers w) as [|[a|] rest]; cbn in Hrun; try done.
    destruct (decide (a = "Yes")) as [->|Hne]; [done|]. exfalso.
    assert (Hresp : (if bool_decide (a ∈ ["Yes"; "Not this time"; "Never"])
                     then Some a else None) <> Some "Yes")
      by (clear Hrun; case_bool_decide; [by intros [= ?]|done]).
    set (resp := if bool_decide (a ∈ ["Yes"; "Not this time"; "Never"])
                 then Some a else None) in *.
    rewrite (bool_decide_eq_false_2 (resp = Some "Yes")) in Hrun by done.
    destruct (bool_decide (resp = Some "Never")); [done|].
    by destruct (bool_decide (resp = Some "Not this time")).
  - intros [= ->]. by left.
Qed.

(** The consent protocol does not call the client factory. *)
Lemma shouldDownload_no_factory v :
  steps (appends (fun ev => forall server dl, ev <> EvCreateLanguageServerClient server dl))
    (shouldDownload (Backend:=Backend) v).
Proof. solve_steps. Qed.

(** X14. The client factory is allowed to download only by consent: when
    the start at activation, or the restart command without a client, calls
    it with the download flag [true], the consent value is [true], or it is
    not a boolean and the user answered "Yes" to the prompt. *)
Theorem download_needs_consent root s srv v w :
  (EvCreateLanguageServerClient srv true
     ∈ events_since w (startLanguageServer root srv v w).2 ->
   v = VBoolean true \/
   (as_boolean v = None /\ head (informationAnswers w) = Some (Some "Yes"))) /\
  (client w = None ->
   EvCreateLanguageServerClient (server s) true
     ∈ events_since w (restartLanguageServer s w).2 ->
   captured_downloadLanguageServer s = VBoolean true \/
   (as_boolean (captured_downloadLanguageServer s) = None /\
    head (informationAnswers w) = Some (Some "Yes"))).
Proof.
  assert (Hcore : forall v0 srv0 dl w0 tail d0,
    shouldDownload v0 w = (Normal dl, w0) ->
    Forall (fun ev => forall server dl, ev <> EvCreateLanguageServerClient server dl) d0 ->
    Forall (fun ev => forall server dl, ev <> EvCreateLanguageServerClient server dl) tail ->
    EvCreateLanguageServerClient srv0 true
      ∈ d0 ++ EvCreateLanguageServerClient srv0 dl :: tail ->
    v0 = VBoolean true \/
    (as_boolean v0 = None /\ head (informationAnswers w) = Some (Some "Yes"))).
  { intros v0 srv0 dl w0 tail d0 Hc Hd0 Htail Hin.
    apply shouldDownload_true. rewrite Hc. cbn.
    apply elem_of_app in Hin as [Hin|Hin].
    - rewrite Forall_forall in Hd0. by destruct (Hd0 _ Hin srv0 true).
    - apply elem_of_cons in Hin as [[= <-]|Hin]; [done|].
      rewrite Forall_forall in Htail. by destruct (Htail _ Hin srv0 true). }
  split.
  - destruct (shouldDownload_total v w) as (dl & w0 & Hc).
    pose proof (shouldDownload_no_factory v w) as (d0 & Hd0 & Hfree).
    rewrite Hc in Hd0. cbn [snd] in Hd0.
    destruct (startLanguageServer_run root srv v w dl w0 Hc) as (_ & _ & Hlog).
    rewrite Hd0, <- app_assoc in Hlog. rewrite (events_since_app _ _ _ Hlog).
    apply (Hcore v srv dl w0 _ d0 Hc Hfree).
    destruct (createLanguageServerClient srv dl (backend w0));
      [case_bool_decide|]; by repeat constructor.
  - intros Hnone.
    destruct (shouldDownload_total (captured_downloadLanguageServer s) w) as (dl & w0 & Hc).
    pose proof (shouldDownload_no_factory (captured_downloadLanguageServer s) w)
      as (d0 & Hd0 & Hfree).
    rewrite Hc in Hd0. cbn [snd] in Hd0.
    destruct (restartLanguageServer_absent s w dl w0 Hnone Hc) as (_ & _ & Hlog).
    rewrite Hd0, <- app_assoc in Hlog. rewrite (events_since_app _ _ _ Hlog).
    apply (Hcore _ _ dl w0 _ d0 Hc Hfree).
    destruct (createLanguageServerClient _ dl (backend w0)); by repeat constructor.
Qed.

End ConsentBeforeDownload.

(** ** The prompts of activation *)

Section Prompts.

Context {Backend : Type} `{!Collaborators Backend}.
Implicit Types w : World Backend.

Lemma filter_no_information d :
  Forall (fun ev => isInformationMessage ev = false) d ->
  List.filter isInformationMessage d = [].
Proof. induction 1 as [|ev d Hev _ IH]; [done|]. cbn. by rewrite Hev. Qed.

Lemma resolveConfiguration_no_information files :
  steps (appends (fun ev => isInformationMessage ev = false)) (resolveConfiguration files).
Proof. solve_steps. Qed.

Lemma registerProviders_no_information buildDir :
  steps (appends (fun ev => isInformationMessage ev = false)) (registerProviders buildDir).
Proof. solve_steps. Qed.

Lemma configureProject_no_information root files mesonFile chosen v :
  steps (appends (fun ev => isInformationMessage ev = false))
    (configureProject root files mesonFile chosen v).
Proof. solve_steps. Qed.

(** The configure-on-open prompt is shown when the value is "ask", and
    nothing else is asked. *)
Lemma askConfigureOnOpen_prompt chosen w :
  exists d,
    log (askConfigureOnOpen chosen w).2 = log w ++ d /\
    List.filter isInformationMessage d =
      if bool_decide ((if chosen then VBoolean true
                       else effectiveSetting SettingsKey.configureOnOpen (settings w))
                      = VString "ask")
      then [configureOnOpenPrompt] else [].
Proof.
  unfold askConfigureOnOpen, bind at 1, extensionConfiguration, gets. cbn beta iota zeta.
  case_bool_decide.
  - unfold bind at 1, showInformationMessage. cbn beta iota zeta.
    repeat case_bool_decide; cbn; rewrite <- ?app_assoc; eexists;
      (split; [reflexivity|reflexivity]).
  - exists []. by rewrite app_nil_r.
Qed.

Lemma configureOnOpenFlow_prompt root files mesonFile buildDir chosen w :
  exists d,
    log (configureOnOpenFlow root files mesonFile buildDir chosen w).2 = log w ++ d /\
    (List.filter isInformationMessage d = [] \/
     List.filter isInformationMessage d = [configureOnOpenPrompt]) /\
    (chosen = true \/
     effectiveSetting SettingsKey.configureOnOpen (settings w) <> VString "ask" ->
     List.filter isInformationMessage d = []).
Proof.
  rewrite configureOnOpenFlow_run.
  destruct (checkMesonIsConfigured buildDir (backend w)).
  - exists [EvRebuildTests]. split; [done|]. split; [by left|done].
  - destruct (askConfigureOnOpen_prompt chosen w) as (da & La & Fa).
    assert (Hfa : (List.filter isInformationMessage da = [] \/
                   List.filter isInformationMessage da = [configureOnOpenPrompt]) /\
                  (chosen = true \/
                   effectiveSetting SettingsKey.configureOnOpen (settings w) <> VString "ask" ->
                   List.filter isInformationMessage da = [])).
    { rewrite Fa. split; [case_bool_decide; [by right|by left]|].
      intros [->|Hne]; [done|]. destruct chosen; [done|]. by rewrite bool_decide_eq_false_2. }
    destruct (askConfigureOnOpen chosen w) as [[v|] w0]; cbn [snd] in La.
    + pose proof (configureProject_no_information root files mesonFile chosen v w0)
        as (dp & Lp & Fp).
      exists (da ++ dp). split; [by rewrite Lp, La, app_assoc|].
      by rewrite List.filter_app, (filter_no_information dp Fp), app_nil_r.
    + by exists da.
Qed.

Lemma startLanguageServer_prompt root srv v w :
  exists d,
    log (startLanguageServer root srv v w).2 = log w ++ d /\
    List.filter isInformationMessage d =
      match as_boolean v with
      | Some _ => []
      | None => [consentPrompt]
      end.
Proof.
  assert (Hd : exists d0,
    log (shouldDownload v w).2 = log w ++ d0 /\
    List.filter isInformationMessage d0 =
      match as_boolean v with
      | Some _ => []
      | None => [consentPrompt]
      end).
  { unfold shouldDownload. destruct (as_boolean v).
    - exists []. by rewrite app_nil_r.
    - unfold bind at 1, showInformationMessage. cbn beta iota zeta.
      repeat case_bool_decide; cbn; rewrite <- ?app_assoc; eexists;
        (split; [reflexivity|reflexivity]). }
  destruct Hd as (d0 & L0 & F0).
  destruct (shouldDownload_total v w) as (dl & w0 & Hc).
  rewrite Hc in L0. cbn [snd] in L0.
  destruct (startLanguageServer_run root srv v w dl w0 Hc) as (_ & _ & Hlog).
  eexists. split; [by rewrite Hlog, L0, <- app_assoc|].
  rewrite List.filter_app, F0.
  destruct (createLanguageServerClient srv dl (backend w0));
    [case_bool_decide|]; cbn; by rewrite app_nil_r.
Qed.

(** X15. Activation that goes through asks the user at most twice, and in
    this order: the configure-on-open prompt at most once, then the consent
    prompt, which is shown exactly when the consent setting, as activation
    began, is not a boolean. The configure-on-open prompt is not shown when
    the persisted choice was honoured, nor when the setting is not "ask". No
    other information message is shown. *)
Theorem activate_prompts w s w' :
  activate w = (Normal (Some s), w') ->
  exists asked,
    List.filter isInformationMessage (events_since w w') =
      asked ++ match as_boolean (consentSetting w) with
               | Some _ => []
               | None => [consentPrompt]
               end /\
    (asked = [] \/ asked = [configureOnOpenPrompt]) /\
    (configurationChosen s = true \/
     effectiveSetting SettingsKey.configureOnOpen (settings w) <> VString "ask" ->
     asked = []).
Proof.
  intros Hrun.
  pose proof (activate_captures_consent w s w' Hrun) as Hcap.
  destruct (activate_returns_session w s w' Hrun) as (rt & others & f & fs & Hf & Hm).
  destruct (activate_stages w rt others f fs Hf Hm)
    as (mf & ch & w1 & w2 & w3 & w4 & E1 & E2 & E3 & E4 & Eact).
  rewrite Eact in Hrun. injection Hrun as <- <-.
  cbn [captured_downloadLanguageServer configurationChosen] in *.
  pose proof (resolveConfiguration_no_information (f :: fs) w) as (d1 & L1 & F1).
  assert (K1 : steps (keeps settings) (resolveConfiguration (f :: fs))) by solve_steps.
  specialize (K1 w). rewrite E1 in L1, K1. cbn [snd] in L1, K1.
  pose proof (registerProviders_no_information (relativeBuildDir mf) w1) as (d2 & L2 & F2).
  assert (K2 : steps (keeps settings) (registerProviders (relativeBuildDir mf)))
    by solve_steps.
  specialize (K2 w1). rewrite E2 in L2, K2. cbn [snd] in L2, K2.
  destruct (configureOnOpenFlow_prompt rt (f :: fs) mf (relativeBuildDir mf) ch w2)
    as (d3 & L3 & F3 & N3).
  rewrite E3 in L3. cbn [snd] in L3.
  destruct (startLanguageServer_prompt rt
              (effectiveSetting SettingsKey.languageServer (settings w3))
              (consentSetting w3) w3) as (d4 & L4 & F4).
  rewrite E4 in L4. cbn [snd] in L4.
  unfold keeps in K1, K2.
  exists (List.filter isInformationMessage d3).
  split; [|split; [exact F3|]].
  - rewrite (events_since_app w _
               (d1 ++ d2 ++ d3 ++ d4 ++ [EvRegister "mesonbuild.restartLanguageServer"])).
    + rewrite !List.filter_app, (filter_no_information d1 F1),
        (filter_no_information d2 F2), F4, Hcap. cbn. by rewrite app_nil_r.
    + cbn [log with_log]. rewrite L4, L3, L2, L1. by rewrite <- !app_assoc.
  - intros Hno. apply N3. by rewrite K2, K1.
Qed.

End Prompts.

(** * The further properties on the concrete workspace *)

Section FurtherConcrete.

(** X1, on the concrete workspace: the build command given the target
    "all", while the user would hide a picker; the picker is not shown. *)
Lemma pickAndRunTask_named_runs_directly_witness :
  let w := with_taskPickAnswers [Hide] (Demo.world Demo.single Demo.noSettings ∅ [] []) in
  let r := pickAndRunTask "build" (Some "all") w in
  "all" <> "" /\
  r.1 = Normal tt /\
  events_since w r.2 = [EvRunFirstTask "build" (Some "all")] /\
  taskPickAnswers r.2 = [Hide].
Proof.
  cbv zeta. split; [discriminate|].
  apply (pickAndRunTask_named_runs_directly "build" "all"
           (with_taskPickAnswers [Hide] (Demo.world Demo.single Demo.noSettings ∅ [] []))).
  discriminate.
Defined.

(** X7, on the concrete workspace: two files, the first authoritative; the
    user picks the first item shown, which is the second file; the next
    resolution settles on it. *)
Lemma pick_then_resolve_witness :
  let w := Demo.world Demo.two Demo.noSettings ∅ [] [] in
  let sel := {| index := 1; label := "a/meson.build" |} in
  let r := configureProject "/ws" Demo.two "/ws/b/meson.build" false (VBoolean true)
             (picking (Some 0) w) in
  let r' := resolveConfiguration Demo.two r.2 in
  truthy (VBoolean true) = true /\
  1 < length Demo.two /\
  configurationItems "/ws" Demo.two !! 0 = Some sel /\
  Demo.two !! index sel = Some "/ws/a/meson.build" /\
  "/ws/a/meson.build" <> "/ws/b/meson.build" /\
  "/ws/a/meson.build" <> "" /\
  r'.1 = Normal ("/ws/a/meson.build", true) /\
  workspaceState r'.2 !! "mesonbuild.buildDir" = Some (VString "/ws/a/builddir").
Proof.
  cbv zeta. split; [reflexivity|]. split; [cbn; lia|]. split; [reflexivity|].
  split; [reflexivity|]. split; [discriminate|]. split; [discriminate|].
  destruct (pick_then_resolve "/ws" "/ws/b/meson.build" ["/ws/a/meson.build"]
              "/ws/b/meson.build" (VBoolean true)
              (Demo.world Demo.two Demo.noSettings ∅ [] []) 0
              {| index := 1; label := "a/meson.build" |} "/ws/a/meson.build")
    as (_ & _ & Hres & Hbuild & _);
    [reflexivity|cbn; lia|reflexivity|reflexivity|discriminate|discriminate|].
  split; [exact Hres|exact Hbuild].
Defined.

(** X9, on the concrete workspace: the two files discovered in the order of
    their relative paths are offered in that order. *)
Lemma configurationItems_discovery_order_witness :
  let files := ["/ws/a/meson.build"; "/ws/b/meson.build"] in
  Sorted (ascending byLabel) (candidates (Backend:=Demo.Backend) "/ws" files) /\
  configurationItems (Backend:=Demo.Backend) "/ws" files =
    [{| index := 0; label := "a/meson.build" |};
     {| index := 1; label := "b/meson.build" |}].
Proof.
  cbv zeta.
  assert (Hsorted : Sorted (ascending byLabel)
            (candidates (Backend:=Demo.Backend) "/ws"
               ["/ws/a/meson.build"; "/ws/b/meson.build"])).
  { repeat constructor. by vm_compute. }
  split; [exact Hsorted|].
  etrans; [exact (configurationItems_discovery_order "/ws" _ Hsorted)|reflexivity].
Defined.

(** X11, on the concrete workspace: two files, the user agrees to
    configure and picks the second file; the environment keeps the first
    file, and the directories persisted are those of the first file. *)
Lemma activate_session_invariant_witness :
  let w := Demo.world Demo.two Demo.noSettings ∅ [Some "Yes"; Some "Never"] [Some 0] in
  let w' := (activate w).2 in
  activate w = (Normal (Some Demo.session2), w') /\
  workspaceState w' !! "mesonbuild.mesonFile" = Some (VString "/ws/a/meson.build") /\
  workspaceState w' !! "mesonbuild.buildDir" = Some (VString "/ws/b/builddir") /\
  workspaceState w' !! "mesonbuild.sourceDir" = Some (VString "/ws/b") /\
  captured_downloadLanguageServer Demo.session2 = consentSetting w.
Proof.
  cbv zeta.
  assert (Hrun : activate (Demo.world Demo.two Demo.noSettings ∅
                             [Some "Yes"; Some "Never"] [Some 0])
                 = (Normal (Some Demo.session2),
                    (activate (Demo.world Demo.two Demo.noSettings ∅
                                 [Some "Yes"; Some "Never"] [Some 0])).2))
    by (vm_compute; reflexivity).
  split; [exact Hrun|]. split; [vm_compute; reflexivity|].
  destruct (activate_session_invariant _ _ _ Hrun) as (_ & _ & _ & Hbuild & Hsrc & Hcap & _).
  split; [exact Hbuild|]. split; [exact Hsrc|exact Hcap].
Defined.

(** X12, on the concrete workspace, whose build directory is not
    configured: with the setting [false] the flow does nothing, and after an
    explicit choice it reconfigures at once. *)
Lemma configureOnOpenFlow_without_prompt_witness :
  let w := Demo.world Demo.two Demo.neverConfigure ∅ [] [] in
  checkMesonIsConfigured "/ws/b/builddir" (backend w) = false /\
  effectiveSetting SettingsKey.configureOnOpen (settings w) = VBoolean false /\
  configureOnOpenFlow "/ws" Demo.two "/ws/b/meson.build" "/ws/b/builddir" false w
    = (Normal tt, w) /\
  events_since w
    (configureOnOpenFlow "/ws" Demo.two "/ws/b/meson.build" "/ws/b/builddir" true w).2
    = [EvRunFirstTask "reconfigure" None].
Proof.
  cbv zeta. split; [reflexivity|]. split; [reflexivity|].
  destruct (configureOnOpenFlow_without_prompt "/ws" Demo.two "/ws/b/meson.build"
              "/ws/b/builddir" (Demo.world Demo.two Demo.neverConfigure ∅ [] []))
    as [_ Hnot].
  destruct (Hnot eq_refl) as ([_ Hchosen] & Hfalse & _).
  split; [exact (Hfalse eq_refl)|exact Hchosen].
Defined.

(** X13, on the concrete workspace, where the setting is "ask": the answer
    "Always" is persisted in the workspace scope, the answer "Yes" is not. *)
Lemma askConfigureOnOpen_answers_witness :
  let w := Demo.world Demo.single Demo.noSettings ∅ [] [] in
  effectiveSetting SettingsKey.configureOnOpen (settings w) = VString "ask" /\
  settings (askConfigureOnOpen false (answering (Some "Yes") w)).2 = Demo.noSettings /\
  workspaceScope (settings (askConfigureOnOpen false (answering (Some "Always") w)).2)
    !! SettingsKey.configureOnOpen = Some (VBoolean true).
Proof.
  cbv zeta. split; [reflexivity|].
  destruct (askConfigureOnOpen_answers (Demo.world Demo.single Demo.noSettings ∅ [] []))
    as ((_ & Hyes & _) & (_ & Halways & _) & _); [reflexivity|].
  split; [exact Hyes|exact Halways].
Defined.

(** X14, on the concrete workspace: the consent value is "ask" and the
    user answers "Yes"; the factory is called with the download allowed. *)
Lemma download_needs_consent_witness :
  let w := Demo.world Demo.single Demo.noSettings ∅ [Some "Yes"] [] in
  EvCreateLanguageServerClient richServer true
    ∈ events_since w (startLanguageServer "/ws" richServer (VString "ask") w).2 /\
  as_boolean (VString "ask") = None /\
  head (informationAnswers w) = Some (Some "Yes").
Proof.
  cbv zeta.
  assert (Hin : EvCreateLanguageServerClient richServer true
                  ∈ events_since (Demo.world Demo.single Demo.noSettings ∅ [Some "Yes"] [])
                      (startLanguageServer "/ws" richServer (VString "ask")
                         (Demo.world Demo.single Demo.noSettings ∅ [Some "Yes"] [])).2).
  { apply (list_elem_of_lookup_2 _ 2). vm_compute. reflexivity. }
  split; [exact Hin|].
  destruct (download_needs_consent "/ws" (Demo.session (VString "ask")) richServer
              (VString "ask") (Demo.world Demo.single Demo.noSettings ∅ [Some "Yes"] []))
    as [Hstart _].
  destruct (Hstart Hin) as [Habs|Hask]; [discriminate Habs|exact Hask].
Defined.

(** X15, on the concrete workspace: two files, both settings "ask"; the
    user is asked whether to configure, then whether to download. *)
Lemma activate_prompts_witness :
  let w := Demo.world Demo.two Demo.noSettings ∅ [Some "Yes"; Some "Never"] [Some 0] in
  activate w = (Normal (Some Demo.session2), (activate w).2) /\
  List.filter isInformationMessage (events_since w (activate w).2) =
    [configureOnOpenPrompt; consentPrompt].
Proof.
  cbv zeta.
  assert (Hrun : activate (Demo.world Demo.two Demo.noSettings ∅
                             [Some "Yes"; Some "Never"] [Some 0])
                 = (Normal (Some Demo.session2),
                    (activate (Demo.world Demo.two Demo.noSettings ∅
                                 [Some "Yes"; Some "Never"] [Some 0])).2))
    by (vm_compute; reflexivity).
  split; [exact Hrun|].
  destruct (activate_prompts _ _ _ Hrun) as (asked & Hfilter & [->| ->] & _).
  - vm_compute in Hfilter. discriminate Hfilter.
  - rewrite Hfilter. reflexivity.
Defined.

End FurtherConcrete.
